(** * SWPMI HAL driver (stm32l4xx_hal_swpmi.c): initialisation and the
      transfer contract

    The first part embeds [HAL_SWPMI_Init] as it is written in
    stm32l4xx_hal_swpmi.c (lines 238-290: the listing ends inside the
    [else] branch, right after the voltage class selection, and the embedding
    ends at the same statement).  The second part models the contracts of the
    callback dispatcher, of the shared blocking wait and of the transfer
    engine, whose definitions are not part of the listing. *)

From Stdlib Require Import ZArith List Bool Lia.
Import ListNotations.
Local Open Scope Z_scope.

(** ** Register access macros of the device header (stm32l4xx.h) *)

Module Cmsis.

(** Registers are [uint32_t]: a value is kept as a [Z], reduced modulo
    2^32 where C would wrap. *)
Definition uint32_t (x : Z) : Z := x mod 2 ^ 32.

(** [~(x)] on a [uint32_t]. *)
Definition not32 (x : Z) : Z := uint32_t (Z.lnot x).

(** The value stored by [CLEAR_BIT(REG, BIT)], i.e. [REG &= ~(BIT)]. *)
Definition CLEAR_BIT (REG BIT : Z) : Z := Z.land REG (not32 BIT).

(** The value stored by [MODIFY_REG(REG, CLEARMASK, SETMASK)], i.e.
    [REG = (REG & ~CLEARMASK) | SETMASK]. *)
Definition MODIFY_REG (REG CLEARMASK SETMASK : Z) : Z :=
  Z.lor (Z.land REG (not32 CLEARMASK)) SETMASK.

(** The value stored by [SET_BIT(REG, BIT)], i.e. [REG |= BIT]. *)
Definition SET_BIT (REG BIT : Z) : Z := Z.lor REG BIT.

(** The values a [uint32_t] register can hold. *)
Definition in_uint32 (x : Z) : Prop := 0 <= x < 2 ^ 32.

End Cmsis.

(** ** Data of the driver *)

Module Swpmi.
Import Cmsis.

(** [HAL_StatusTypeDef] (stm32l4xx_hal_def.h). *)
Inductive HAL_StatusTypeDef : Type :=
| HAL_OK | HAL_ERROR | HAL_BUSY | HAL_TIMEOUT.

(** [HAL_LockTypeDef] (stm32l4xx_hal_def.h). *)
Inductive HAL_LockTypeDef : Type :=
| HAL_UNLOCKED | HAL_LOCKED.

(** [HAL_SWPMI_StateTypeDef]: the lifecycle states of a handle. *)
Inductive HAL_SWPMI_StateTypeDef : Type :=
| HAL_SWPMI_STATE_RESET
| HAL_SWPMI_STATE_READY
| HAL_SWPMI_STATE_BUSY
| HAL_SWPMI_STATE_BUSY_TX
| HAL_SWPMI_STATE_BUSY_RX
| HAL_SWPMI_STATE_BUSY_TX_RX
| HAL_SWPMI_STATE_TIMEOUT
| HAL_SWPMI_STATE_ERROR.

(** [SWPMI_InitTypeDef]: the configuration carried by the handle. *)
Record SWPMI_InitTypeDef : Type := mkInit {
  VoltageClass : Z;
  BitRate : Z;
  TxBufferingMode : Z;
  RxBufferingMode : Z
}.

(** The registers of the SWPMI block, [SWPMI_TypeDef]. *)
Inductive reg : Type := CR | BRR | ISR | ICR | IER | RFL | TDR | RDR | OR.

Record SWPMI_TypeDef : Type := mkRegs {
  r_CR : Z; r_BRR : Z; r_ISR : Z; r_ICR : Z; r_IER : Z;
  r_RFL : Z; r_TDR : Z; r_RDR : Z; r_OR : Z
}.

Definition rd (r : reg) (b : SWPMI_TypeDef) : Z :=
  match r with
  | CR => r_CR b | BRR => r_BRR b | ISR => r_ISR b | ICR => r_ICR b
  | IER => r_IER b | RFL => r_RFL b | TDR => r_TDR b | RDR => r_RDR b
  | OR => r_OR b
  end.

Definition wr (r : reg) (v : Z) (b : SWPMI_TypeDef) : SWPMI_TypeDef :=
  match r with
  | CR  => mkRegs v (r_BRR b) (r_ISR b) (r_ICR b) (r_IER b) (r_RFL b) (r_TDR b) (r_RDR b) (r_OR b)
  | BRR => mkRegs (r_CR b) v (r_ISR b) (r_ICR b) (r_IER b) (r_RFL b) (r_TDR b) (r_RDR b) (r_OR b)
  | ISR => mkRegs (r_CR b) (r_BRR b) v (r_ICR b) (r_IER b) (r_RFL b) (r_TDR b) (r_RDR b) (r_OR b)
  | ICR => mkRegs (r_CR b) (r_BRR b) (r_ISR b) v (r_IER b) (r_RFL b) (r_TDR b) (r_RDR b) (r_OR b)
  | IER => mkRegs (r_CR b) (r_BRR b) (r_ISR b) (r_ICR b) v (r_RFL b) (r_TDR b) (r_RDR b) (r_OR b)
  | RFL => mkRegs (r_CR b) (r_BRR b) (r_ISR b) (r_ICR b) (r_IER b) v (r_TDR b) (r_RDR b) (r_OR b)
  | TDR => mkRegs (r_CR b) (r_BRR b) (r_ISR b) (r_ICR b) (r_IER b) (r_RFL b) v (r_RDR b) (r_OR b)
  | RDR => mkRegs (r_CR b) (r_BRR b) (r_ISR b) (r_ICR b) (r_IER b) (r_RFL b) (r_TDR b) v (r_OR b)
  | OR  => mkRegs (r_CR b) (r_BRR b) (r_ISR b) (r_ICR b) (r_IER b) (r_RFL b) (r_TDR b) (r_RDR b) v
  end.

(** A callback slot of the handle holds a function pointer: one of the weak
    functions of the driver, or a function supplied by the application
    (told apart by a number).  NULL is [None]. *)
Inductive callback : Type :=
| HAL_SWPMI_RxCpltCallback
| HAL_SWPMI_RxHalfCpltCallback
| HAL_SWPMI_TxCpltCallback
| HAL_SWPMI_TxHalfCpltCallback
| HAL_SWPMI_ErrorCallback
| HAL_SWPMI_MspInit
| HAL_SWPMI_MspDeInit
| UserCallback (id : nat).

(** [SWPMI_HandleTypeDef], with the fields the initialisation and the
    callback dispatcher touch.  [Instance] always designates the one SWPMI1
    block, kept next to the handle in [World].  The callback slots exist in
    the C structure when USE_HAL_SWPMI_REGISTER_CALLBACKS is 1; otherwise no
    code reads or writes them. *)
Record SWPMI_HandleTypeDef : Type := mkHandle {
  Init : SWPMI_InitTypeDef;
  Lock : HAL_LockTypeDef;
  State : HAL_SWPMI_StateTypeDef;
  ErrorCode : Z;
  RxCpltCallback : option callback;
  RxHalfCpltCallback : option callback;
  TxCpltCallback : option callback;
  TxHalfCpltCallback : option callback;
  ErrorCallback : option callback;
  MspInitCallback : option callback;
  MspDeInitCallback : option callback
}.

(** The pointer a caller passes: NULL, or the address of the handle object
    the application declared. *)
Inductive handle_ptr : Type := NULL | HandleAddr.

(** Effects that are visible outside the function, in program order:
    accesses to the (volatile) peripheral registers, calls to collaborators
    whose body is outside the driver, and lifecycle transitions of the
    handle. *)
Inductive event : Type :=
| EvLoad (r : reg) (v : Z)
| EvStore (r : reg) (v : Z)
| EvCall (f : callback)
| EvAssertFailed (line : Z)
| EvState (s : HAL_SWPMI_StateTypeDef).

(** What the driver acts on: the handle object and the register block. *)
Record World : Type := mkWorld {
  hswpmi_obj : SWPMI_HandleTypeDef;
  SWPMI1 : SWPMI_TypeDef
}.

(** ** Compile-time environment

    The feature switches of stm32l4xx_hal_conf.h, the bit masks of the
    device header and the parameter-check macros of stm32l4xx_hal_swpmi.h
    are outside the listing: the driver is embedded over any choice of
    them. *)
Class Target : Type := mkTarget {
  USE_HAL_SWPMI_REGISTER_CALLBACKS : bool;
  USE_FULL_ASSERT : bool;
  SWPMI_CR_SWPACT : Z;
  SWPMI_OR_CLASS : Z;
  IS_SWPMI_VOLTAGE_CLASS : Z -> bool;
  IS_SWPMI_BITRATE_VALUE : Z -> bool;
  IS_SWPMI_TX_BUFFERING_MODE : Z -> bool;
  IS_SWPMI_RX_BUFFERING_MODE : Z -> bool
}.

(** ** A state monad over [World] that logs the effects *)

Definition M (A : Type) : Type := World -> A * World * list event.

Definition ret {A : Type} (a : A) : M A := fun w => (a, w, []).

Definition bind {A B : Type} (c : M A) (k : A -> M B) : M B :=
  fun w =>
    let '(a, w1, l1) := c w in
    let '(b, w2, l2) := k a w1 in
    (b, w2, l1 ++ l2).

Declare Scope hal_scope.
Delimit Scope hal_scope with hal.
Notation "x <- c ;; k" := (bind c (fun x => k))
  (at level 61, c at next level, right associativity) : hal_scope.
Notation "c ;; k" := (bind c (fun _ => k))
  (at level 61, right associativity) : hal_scope.

Definition when (b : bool) (c : M unit) : M unit :=
  if b then c else ret tt.

Definition emit (e : event) : M unit := fun w => (tt, w, [e]).

Definition handle : M SWPMI_HandleTypeDef := fun w => (hswpmi_obj w, w, []).

Definition update (f : SWPMI_HandleTypeDef -> SWPMI_HandleTypeDef) : M unit :=
  fun w => (tt, mkWorld (f (hswpmi_obj w)) (SWPMI1 w), []).

(** Volatile register read and write. *)
Definition load (r : reg) : M Z :=
  fun w => (rd r (SWPMI1 w), w, [EvLoad r (rd r (SWPMI1 w))]).

Definition store (r : reg) (v : Z) : M unit :=
  fun w => (tt, mkWorld (hswpmi_obj w) (wr r v (SWPMI1 w)), [EvStore r v]).

(** Projections of a run. *)
Definition result {A : Type} (r : A * World * list event) : A := fst (fst r).
Definition world {A : Type} (r : A * World * list event) : World := snd (fst r).
Definition log {A : Type} (r : A * World * list event) : list event := snd r.

(** Field assignments [hswpmi->F = v]. *)
Definition set_Lock (v : HAL_LockTypeDef) (h : SWPMI_HandleTypeDef) :=
  mkHandle (Init h) v (State h) (ErrorCode h) (RxCpltCallback h)
    (RxHalfCpltCallback h) (TxCpltCallback h) (TxHalfCpltCallback h)
    (ErrorCallback h) (MspInitCallback h) (MspDeInitCallback h).

Definition set_State (v : HAL_SWPMI_StateTypeDef) (h : SWPMI_HandleTypeDef) :=
  mkHandle (Init h) (Lock h) v (ErrorCode h) (RxCpltCallback h)
    (RxHalfCpltCallback h) (TxCpltCallback h) (TxHalfCpltCallback h)
    (ErrorCallback h) (MspInitCallback h) (MspDeInitCallback h).

Definition set_RxCpltCallback (v : option callback) (h : SWPMI_HandleTypeDef) :=
  mkHandle (Init h) (Lock h) (State h) (ErrorCode h) v
    (RxHalfCpltCallback h) (TxCpltCallback h) (TxHalfCpltCallback h)
    (ErrorCallback h) (MspInitCallback h) (MspDeInitCallback h).

Definition set_RxHalfCpltCallback (v : option callback) (h : SWPMI_HandleTypeDef) :=
  mkHandle (Init h) (Lock h) (State h) (ErrorCode h) (RxCpltCallback h)
    v (TxCpltCallback h) (TxHalfCpltCallback h)
    (ErrorCallback h) (MspInitCallback h) (MspDeInitCallback h).

Definition set_TxCpltCallback (v : option callback) (h : SWPMI_HandleTypeDef) :=
  mkHandle (Init h) (Lock h) (State h) (ErrorCode h) (RxCpltCallback h)
    (RxHalfCpltCallback h) v (TxHalfCpltCallback h)
    (ErrorCallback h) (MspInitCallback h) (MspDeInitCallback h).

Definition set_TxHalfCpltCallback (v : option callback) (h : SWPMI_HandleTypeDef) :=
  mkHandle (Init h) (Lock h) (State h) (ErrorCode h) (RxCpltCallback h)
    (RxHalfCpltCallback h) (TxCpltCallback h) v
    (ErrorCallback h) (MspInitCallback h) (MspDeInitCallback h).

Definition set_ErrorCallback (v : option callback) (h : SWPMI_HandleTypeDef) :=
  mkHandle (Init h) (Lock h) (State h) (ErrorCode h) (RxCpltCallback h)
    (RxHalfCpltCallback h) (TxCpltCallback h) (TxHalfCpltCallback h)
    v (MspInitCallback h) (MspDeInitCallback h).

Definition set_MspInitCallback (v : option callback) (h : SWPMI_HandleTypeDef) :=
  mkHandle (Init h) (Lock h) (State h) (ErrorCode h) (RxCpltCallback h)
    (RxHalfCpltCallback h) (TxCpltCallback h) (TxHalfCpltCallback h)
    (ErrorCallback h) v (MspDeInitCallback h).

Definition set_MspDeInitCallback (v : option callback) (h : SWPMI_HandleTypeDef) :=
  mkHandle (Init h) (Lock h) (State h) (ErrorCode h) (RxCpltCallback h)
    (RxHalfCpltCallback h) (TxCpltCallback h) (TxHalfCpltCallback h)
    (ErrorCallback h) (MspInitCallback h) v.

Definition state_eqb (a b : HAL_SWPMI_StateTypeDef) : bool :=
  match a, b with
  | HAL_SWPMI_STATE_RESET, HAL_SWPMI_STATE_RESET
  | HAL_SWPMI_STATE_READY, HAL_SWPMI_STATE_READY
  | HAL_SWPMI_STATE_BUSY, HAL_SWPMI_STATE_BUSY
  | HAL_SWPMI_STATE_BUSY_TX, HAL_SWPMI_STATE_BUSY_TX
  | HAL_SWPMI_STATE_BUSY_RX, HAL_SWPMI_STATE_BUSY_RX
  | HAL_SWPMI_STATE_BUSY_TX_RX, HAL_SWPMI_STATE_BUSY_TX_RX
  | HAL_SWPMI_STATE_TIMEOUT, HAL_SWPMI_STATE_TIMEOUT
  | HAL_SWPMI_STATE_ERROR, HAL_SWPMI_STATE_ERROR => true
  | _, _ => false
  end.

(** ** HAL_SWPMI_Init *)

Section Init.
Context {T : Target}.
Local Open Scope hal_scope.

(** [assert_param(expr)] (stm32l4xx_hal_conf.h): nothing unless
    USE_FULL_ASSERT is defined; with it, a false [expr] calls the
    application's [assert_failed(file, line)] hook and execution goes on
    after the hook.  No status is produced either way. *)
Definition assert_param (expr : bool) (line : Z) : M unit :=
  when (USE_FULL_ASSERT && negb expr) (emit (EvAssertFailed line)).

(** A call through a function pointer, or to a weak function: the callee
    is board support code (clocks, pins, interrupt controller) and is
    recorded as a call. *)
Definition call (f : callback) : M unit := emit (EvCall f).

(** [hswpmi->State = s]. *)
Definition assign_State (s : HAL_SWPMI_StateTypeDef) : M unit :=
  update (set_State s) ;; emit (EvState s).

(** The block run when [hswpmi->State == HAL_SWPMI_STATE_RESET]
    (lines 257-279). *)
Definition init_from_reset : M unit :=
  (* Allocate lock resource and initialize it *)
  update (set_Lock HAL_UNLOCKED) ;;
  if USE_HAL_SWPMI_REGISTER_CALLBACKS then
    (* Reset callback pointers to the weak predefined callbacks *)
    update (set_RxCpltCallback (Some HAL_SWPMI_RxCpltCallback)) ;;
    update (set_RxHalfCpltCallback (Some HAL_SWPMI_RxHalfCpltCallback)) ;;
    update (set_TxCpltCallback (Some HAL_SWPMI_TxCpltCallback)) ;;
    update (set_TxHalfCpltCallback (Some HAL_SWPMI_TxHalfCpltCallback)) ;;
    update (set_ErrorCallback (Some HAL_SWPMI_ErrorCallback)) ;;
    (* Init the low level hardware : GPIO, CLOCK, NVIC and DMA *)
    h <- handle ;;
    when (match MspInitCallback h with None => true | Some _ => false end)
         (update (set_MspInitCallback (Some HAL_SWPMI_MspInit))) ;;
    h <- handle ;;
    match MspInitCallback h with
    | Some f => call f
    | None => ret tt
    end
  else
    (* Init the low level hardware : GPIO, CLOCK, NVIC and DMA *)
    call HAL_SWPMI_MspInit.

(** The [else] branch of the NULL check, up to the voltage class selection
    (lines 250-290). *)
Definition init_body : M unit :=
  (* Check the parameters *)
  h <- handle ;;
  assert_param (IS_SWPMI_VOLTAGE_CLASS (VoltageClass (Init h))) 251 ;;
  assert_param (IS_SWPMI_BITRATE_VALUE (BitRate (Init h))) 252 ;;
  assert_param (IS_SWPMI_TX_BUFFERING_MODE (TxBufferingMode (Init h))) 253 ;;
  assert_param (IS_SWPMI_RX_BUFFERING_MODE (RxBufferingMode (Init h))) 254 ;;
  when (state_eqb (State h) HAL_SWPMI_STATE_RESET) init_from_reset ;;
  assign_State HAL_SWPMI_STATE_BUSY ;;
  (* Disable SWPMI interface *)
  cr <- load CR ;;
  store CR (CLEAR_BIT cr SWPMI_CR_SWPACT) ;;
  (* Clear all SWPMI interface flags *)
  store ICR 0x019F ;;
  (* Apply Voltage class selection *)
  h <- handle ;;
  opt <- load OR ;;
  store OR (MODIFY_REG opt SWPMI_OR_CLASS (VoltageClass (Init h))).

(** [HAL_SWPMI_Init(hswpmi)]: the value of [status] and the world at the
    end of the listing. *)
Definition HAL_SWPMI_Init (hswpmi : handle_ptr) : M HAL_StatusTypeDef :=
  match hswpmi with
  | NULL => ret HAL_ERROR
  | HandleAddr => init_body ;; ret HAL_OK
  end.

End Init.

(** A build used for the examples: callback registration on, parameter
    checks compiled out; SWPACT taken as bit 5 of CR and CLASS as bit 1 of
    OR; checks that accept class C (0) or class B (the CLASS bit), a bit
    rate prescaler up to 255, and either no buffering (0) or the
    multi-buffer bit of CR (TXMODE as bit 3, RXMODE as bit 2). *)
Definition stm32l4 : Target := {|
  USE_HAL_SWPMI_REGISTER_CALLBACKS := true;
  USE_FULL_ASSERT := false;
  SWPMI_CR_SWPACT := 0x20;
  SWPMI_OR_CLASS := 0x2;
  IS_SWPMI_VOLTAGE_CLASS := fun v => (v =? 0) || (v =? 0x2);
  IS_SWPMI_BITRATE_VALUE := fun v => v <=? 255;
  IS_SWPMI_TX_BUFFERING_MODE := fun v => (v =? 0) || (v =? 0x8);
  IS_SWPMI_RX_BUFFERING_MODE := fun v => (v =? 0) || (v =? 0x4)
|}.

(** The same build with USE_FULL_ASSERT defined and the callback
    registration feature off. *)
Definition stm32l4_full_assert : Target := {|
  USE_HAL_SWPMI_REGISTER_CALLBACKS := false;
  USE_FULL_ASSERT := true;
  SWPMI_CR_SWPACT := 0x20;
  SWPMI_OR_CLASS := 0x2;
  IS_SWPMI_VOLTAGE_CLASS := fun v => (v =? 0) || (v =? 0x2);
  IS_SWPMI_BITRATE_VALUE := fun v => v <=? 255;
  IS_SWPMI_TX_BUFFERING_MODE := fun v => (v =? 0) || (v =? 0x8);
  IS_SWPMI_RX_BUFFERING_MODE := fun v => (v =? 0) || (v =? 0x4)
|}.

(** Whether a configuration passes the four parameter checks. *)
Definition config_valid {T : Target} (c : SWPMI_InitTypeDef) : bool :=
  IS_SWPMI_VOLTAGE_CLASS (VoltageClass c)
  && IS_SWPMI_BITRATE_VALUE (BitRate c)
  && IS_SWPMI_TX_BUFFERING_MODE (TxBufferingMode c)
  && IS_SWPMI_RX_BUFFERING_MODE (RxBufferingMode c).

(** ** Reading a log *)

(** The collaborators called, in order. *)
Definition calls (l : list event) : list callback :=
  flat_map (fun e => match e with EvCall f => [f] | _ => [] end) l.

(** The register accesses and lifecycle transitions, in order. *)
Definition is_driver_effect (e : event) : bool :=
  match e with
  | EvLoad _ _ | EvStore _ _ | EvState _ => true
  | EvCall _ | EvAssertFailed _ => false
  end.

Definition driver_effects (l : list event) : list event :=
  filter is_driver_effect l.

(** The states other than Reset and Ready: the Busy states, Timeout and
    Error. *)
Definition busy_timeout_or_error (s : HAL_SWPMI_StateTypeDef) : bool :=
  match s with
  | HAL_SWPMI_STATE_RESET | HAL_SWPMI_STATE_READY => false
  | _ => true
  end.

(** Every register of the block holds a [uint32_t] value. *)
Definition regs_in_uint32 (b : SWPMI_TypeDef) : Prop :=
  forall r, in_uint32 (rd r b).

(** The lines of the parameter checks reported to [assert_failed]. *)
Definition assert_failures (l : list event) : list Z :=
  flat_map (fun e => match e with EvAssertFailed n => [n] | _ => [] end) l.

Section Expected.
Context {T : Target}.

(** The function the bring-up block calls: the registered MspInit callback
    when the registration feature is on and one is registered, the weak
    [HAL_SWPMI_MspInit] otherwise. *)
Definition bring_up_function (h : SWPMI_HandleTypeDef) : callback :=
  if USE_HAL_SWPMI_REGISTER_CALLBACKS then
    match MspInitCallback h with
    | Some f => f
    | None => HAL_SWPMI_MspInit
    end
  else HAL_SWPMI_MspInit.

(** The register block after the three register statements of the
    initialisation. *)
Definition configured (vc : Z) (R : SWPMI_TypeDef) : SWPMI_TypeDef :=
  wr OR (MODIFY_REG (rd OR R) SWPMI_OR_CLASS vc)
    (wr ICR 0x019F (wr CR (CLEAR_BIT (rd CR R) SWPMI_CR_SWPACT) R)).

(** The effects of the statements from [hswpmi->State = HAL_SWPMI_STATE_BUSY]
    to the voltage class selection. *)
Definition configuration_effects (vc : Z) (R : SWPMI_TypeDef) : list event :=
  [ EvState HAL_SWPMI_STATE_BUSY;
    EvLoad CR (rd CR R);
    EvStore CR (CLEAR_BIT (rd CR R) SWPMI_CR_SWPACT);
    EvStore ICR 0x019F;
    EvLoad OR (rd OR R);
    EvStore OR (MODIFY_REG (rd OR R) SWPMI_OR_CLASS vc) ].

(** The parameter checks of lines 251-254 that call [assert_failed]. *)
Definition failed_checks (c : SWPMI_InitTypeDef) : list Z :=
  if USE_FULL_ASSERT then
    (if IS_SWPMI_VOLTAGE_CLASS (VoltageClass c) then [] else [251])
    ++ (if IS_SWPMI_BITRATE_VALUE (BitRate c) then [] else [252])
    ++ (if IS_SWPMI_TX_BUFFERING_MODE (TxBufferingMode c) then [] else [253])
    ++ (if IS_SWPMI_RX_BUFFERING_MODE (RxBufferingMode c) then [] else [254])
  else [].

End Expected.

(** ** The function past the end of the listing *)

Section Remainder.
Context {T : Target}.
Local Open Scope hal_scope.

(** The bits of CR that hold the Tx and Rx buffering modes: a mask of the
    device header, outside the listing. *)
Variable buffering : Z.

(** Modelled from the spec: the statements of HAL_SWPMI_Init after line 290
    are missing from the listing.  By section 4.2 init always re-applies
    the configuration and ends in Ready; the configuration is the Init
    structure, whose bit rate and Tx and Rx buffering modes the driver's
    header (lines 42-44) says are programmed before HAL_SWPMI_Init enables
    the peripheral.  Here the bit rate is written to BRR, the buffering
    modes to the [buffering] field of CR, the state becomes Ready and
    SWPACT is set.  The class B delay announced at line 291 is a wait: it
    touches neither the handle nor a register. *)
Definition init_remainder : M unit :=
  h <- handle ;;
  store BRR (BitRate (Init h)) ;;
  cr <- load CR ;;
  store CR (MODIFY_REG cr buffering
              (Z.lor (TxBufferingMode (Init h)) (RxBufferingMode (Init h)))) ;;
  assign_State HAL_SWPMI_STATE_READY ;;
  cr <- load CR ;;
  store CR (SET_BIT cr SWPMI_CR_SWPACT).

(** Modelled from the spec: HAL_SWPMI_Init from its first statement to its
    return, the listed statements (lines 238-290) followed by
    [init_remainder] in the non-NULL branch. *)
Definition HAL_SWPMI_Init_to_return (hswpmi : handle_ptr) : M HAL_StatusTypeDef :=
  status <- HAL_SWPMI_Init hswpmi ;;
  match hswpmi with
  | NULL => ret tt
  | HandleAddr => init_remainder
  end ;;
  ret status.

End Remainder.

End Swpmi.

(** ** Contracts of the parts outside the listing

    stm32l4xx_hal_swpmi.c is listed up to line 291.  The callback
    registration, the blocking wait (only its prototype, line 210, is
    listed) and the transmit and receive functions come after that point;
    they are modelled from the specification of the driver. *)

Module Contract.
Import Swpmi.

(** Modelled from the spec: the status codes of the functions that are
    missing from the listing follow the error taxonomy of section 7, with
    [Ok] for success. *)
Inductive Outcome : Type :=
| Ok | InvalidHandle | InvalidConfig | Busy | Timeout | Error | InvalidState.

(** Modelled from the spec: the callback identifiers are declared in the
    driver's header, which is missing; these are the callback kinds of the
    callback table (section 3). *)
Inductive CallbackKind : Type :=
| TxComplete | RxComplete | TxHalfComplete | RxHalfComplete | ErrorKind
| MspInit | MspDeInit.

Definition is_msp_kind (k : CallbackKind) : bool :=
  match k with
  | MspInit | MspDeInit => true
  | _ => false
  end.

(** The slot of the handle that a kind designates. *)
Definition slot (k : CallbackKind) (h : SWPMI_HandleTypeDef) : option callback :=
  match k with
  | TxComplete => TxCpltCallback h
  | RxComplete => RxCpltCallback h
  | TxHalfComplete => TxHalfCpltCallback h
  | RxHalfComplete => RxHalfCpltCallback h
  | ErrorKind => ErrorCallback h
  | MspInit => MspInitCallback h
  | MspDeInit => MspDeInitCallback h
  end.

Definition set_slot (k : CallbackKind) (v : option callback)
    (h : SWPMI_HandleTypeDef) : SWPMI_HandleTypeDef :=
  match k with
  | TxComplete => set_TxCpltCallback v h
  | RxComplete => set_RxCpltCallback v h
  | TxHalfComplete => set_TxHalfCpltCallback v h
  | RxHalfComplete => set_RxHalfCpltCallback v h
  | ErrorKind => set_ErrorCallback v h
  | MspInit => set_MspInitCallback v h
  | MspDeInit => set_MspDeInitCallback v h
  end.

(** Modelled from the spec: the body of HAL_SWPMI_RegisterCallback is
    missing from the listing.  [register(kind, handler)] is allowed only
    while the handle is Ready, or Reset for the Msp kinds, and returns
    InvalidState otherwise. *)
Definition register (kind : CallbackKind) (handler : callback)
    (h : SWPMI_HandleTypeDef) : Outcome * SWPMI_HandleTypeDef :=
  match State h with
  | HAL_SWPMI_STATE_READY => (Ok, set_slot kind (Some handler) h)
  | HAL_SWPMI_STATE_RESET =>
      if is_msp_kind kind then (Ok, set_slot kind (Some handler) h)
      else (InvalidState, h)
  | _ => (InvalidState, h)
  end.

(** Modelled from the spec: the tick counter and the flag registers change
    on their own while a blocking operation waits.  An observation is what
    the hardware shows at one evaluation of a wait loop, the tick counter
    ([now]) and the register block; the hardware is the sequence of what
    successive evaluations see. *)
Record Observation : Type := mkObs {
  now : Z;
  regs : SWPMI_TypeDef
}.

Definition Hardware : Type := nat -> Observation.

(** Modelled from the spec: the body of SWPMI_WaitOnFlagSetUntilTimeout is
    missing from the listing.  [waitUntil(predicate, startTime,
    timeoutBound)] re-evaluates [predicate] against the current register
    state until it is true or until [now - startTime > timeoutBound], and
    returns Ok or Timeout.  [i] is the observation the wait starts at; the
    observation at which the wait ended is returned with the outcome.
    [fuel] bounds the number of evaluations. *)
Fixpoint waitUntil (predicate : SWPMI_TypeDef -> bool)
    (startTime timeoutBound : Z) (hw : Hardware) (i : nat) (fuel : nat)
    : option (Outcome * nat) :=
  match fuel with
  | O => None
  | S fuel' =>
      if predicate (regs (hw i)) then Some (Ok, i)
      else if timeoutBound <? now (hw i) - startTime then Some (Timeout, i)
      else waitUntil predicate startTime timeoutBound hw (S i) fuel'
  end.

Inductive Direction : Type := Tx | Rx.

Inductive Mode : Type := Poll | Interrupt | DMA.

(** Modelled from the spec: the register activity of the transfer engine
    (section 4.3), besides the flag polls that [ticks] counts: one data port
    transaction per unit, the enabling of the interrupt sources, the start
    of a DMA transfer of [length] units. *)
Inductive Activity : Type :=
| DataUnit (d : Direction) (v : Z)
| EnableInterrupts (d : Direction)
| StartDMA (d : Direction) (length : nat).

(** Modelled from the spec: the handle as the transfer engine sees it
    (sections 3 and 4.3): lifecycle state, transferred-count of the
    transfer, number of hardware observations consumed, register activity
    issued. *)
Record Engine : Type := mkEngine {
  state : HAL_SWPMI_StateTypeDef;
  transferred : nat;
  ticks : nat;
  activity : list Activity
}.

Definition busy_state (d : Direction) : HAL_SWPMI_StateTypeDef :=
  match d with
  | Tx => HAL_SWPMI_STATE_BUSY_TX
  | Rx => HAL_SWPMI_STATE_BUSY_RX
  end.

(** Modelled from the spec: one register transaction on the data port, at
    observation [i]: the next unit of the buffer is written (Tx), or the
    data register is read (Rx); the transferred-count grows by one. *)
Definition complete_unit (d : Direction) (buffer : list Z) (hw : Hardware)
    (i : nat) (e : Engine) : Engine :=
  let v := match d with
           | Tx => nth (transferred e) buffer 0
           | Rx => rd RDR (regs (hw i))
           end in
  mkEngine (state e) (S (transferred e)) (S i) (activity e ++ [DataUnit d v]).

(** Modelled from the spec: the Poll strategy of the transfer engine (the
    bodies of HAL_SWPMI_Transmit and HAL_SWPMI_Receive are missing from the
    listing).  Each unit waits for the ready flag with [waitUntil], then
    takes one register transaction; the transfer fails with Timeout once
    the elapsed time exceeds the bound, leaving the handle in the Timeout
    state with the partial transferred-count. *)
Fixpoint poll_units (ready : SWPMI_TypeDef -> bool) (d : Direction)
    (buffer : list Z) (startTime timeoutBound : Z) (hw : Hardware)
    (fuel : nat) (remaining : nat) (e : Engine) : option (Outcome * Engine) :=
  match remaining with
  | O => Some (Ok, mkEngine HAL_SWPMI_STATE_READY (transferred e) (ticks e) (activity e))
  | S remaining' =>
      match waitUntil ready startTime timeoutBound hw (ticks e) fuel with
      | None => None
      | Some (Ok, i) =>
          poll_units ready d buffer startTime timeoutBound hw fuel remaining'
            (complete_unit d buffer hw i e)
      | Some (_, i) =>
          Some (Timeout,
                mkEngine HAL_SWPMI_STATE_TIMEOUT (transferred e) (S i) (activity e))
      end
  end.

(** Modelled from the spec: the shared contract of
    [transmit(handle, buffer, length, mode)] and
    [receive(handle, buffer, length, mode)], whose bodies are missing from
    the listing.  A transfer requested while the handle is not Ready fails
    with Busy and issues no register activity; a zero-length transfer
    completes immediately with no register activity; Poll transfers the
    units one by one under the timeout bound; Interrupt enables the
    interrupt sources and DMA configures the channel, both returning
    immediately with the handle in a Busy state. *)
Definition transfer (ready : Direction -> SWPMI_TypeDef -> bool)
    (hw : Hardware) (fuel : nat) (timeoutBound : Z)
    (d : Direction) (buffer : list Z) (length : nat) (mode : Mode)
    (e : Engine) : option (Outcome * Engine) :=
  if negb (state_eqb (state e) HAL_SWPMI_STATE_READY) then Some (Busy, e)
  else
    match length with
    | O => Some (Ok, mkEngine HAL_SWPMI_STATE_READY 0 (ticks e) (activity e))
    | S _ =>
        match mode with
        | Poll =>
            poll_units (ready d) d buffer (now (hw (ticks e))) timeoutBound
              hw fuel length
              (mkEngine (busy_state d) 0 (ticks e) (activity e))
        | Interrupt =>
            Some (Ok, mkEngine (busy_state d) 0 (ticks e)
                        (activity e ++ [EnableInterrupts d]))
        | DMA =>
            Some (Ok, mkEngine (busy_state d) 0 (ticks e)
                        (activity e ++ [StartDMA d length]))
        end
    end.

Definition transmit ready hw fuel timeoutBound := transfer ready hw fuel timeoutBound Tx.

Definition receive ready hw fuel timeoutBound := transfer ready hw fuel timeoutBound Rx.

Definition is_data_unit (a : Activity) : bool :=
  match a with
  | DataUnit _ _ => true
  | _ => false
  end.

End Contract.

(** ** Sample data *)

Module Samples.
Import Swpmi Contract.

(** A register block with the interface active (SWPACT set) and class C. *)
Definition active_regs : SWPMI_TypeDef := mkRegs 0x20 0 0 0 0 0 0 0 0.

Definition weak_callbacks (c : SWPMI_InitTypeDef) (s : HAL_SWPMI_StateTypeDef)
    : SWPMI_HandleTypeDef :=
  mkHandle c HAL_UNLOCKED s 0
    (Some HAL_SWPMI_RxCpltCallback) (Some HAL_SWPMI_RxHalfCpltCallback)
    (Some HAL_SWPMI_TxCpltCallback) (Some HAL_SWPMI_TxHalfCpltCallback)
    (Some HAL_SWPMI_ErrorCallback) (Some HAL_SWPMI_MspInit)
    (Some HAL_SWPMI_MspDeInit).

(** A handle with a transmission in flight, configured for class B. *)
Definition busy_tx_handle : SWPMI_HandleTypeDef :=
  weak_callbacks (mkInit 0x2 10 0 0) HAL_SWPMI_STATE_BUSY_TX.

(** A Ready handle whose bit rate prescaler is out of range. *)
Definition bad_bitrate_handle : SWPMI_HandleTypeDef :=
  weak_callbacks (mkInit 0x2 1000 0 0) HAL_SWPMI_STATE_READY.

(** A fresh handle on which the application registered its own MspInit. *)
Definition fresh_handle_user_msp : SWPMI_HandleTypeDef :=
  mkHandle (mkInit 0x2 10 0 0) HAL_LOCKED HAL_SWPMI_STATE_RESET 0
    (Some (UserCallback 1)) None None None None (Some (UserCallback 7)) None.

(** A fresh handle with every slot NULL. *)
Definition fresh_handle : SWPMI_HandleTypeDef :=
  mkHandle (mkInit 0 10 0 0) HAL_LOCKED HAL_SWPMI_STATE_RESET 0
    None None None None None None None.

(** Ready flags in ISR: TXE is bit 6, RXNE is bit 5. *)
Definition isr_flag (d : Direction) (R : SWPMI_TypeDef) : bool :=
  Z.testbit (rd ISR R) (match d with Tx => 6 | Rx => 5 end).

(** Hardware whose tick counter advances by one per observation and whose
    ISR is given by [isr]. *)
Definition ticking (isr : nat -> Z) : Hardware :=
  fun j => mkObs (Z.of_nat j) (mkRegs 0 0 (isr j) 0 0 0 0 0 0).

(** The flags never set. *)
Definition silent : Hardware := ticking (fun _ => 0).

(** TXE sets from the third observation on. *)
Definition txe_from_2 : Hardware :=
  ticking (fun j => if (j <? 2)%nat then 0 else 0x40).

(** TXE is set at the first two observations only. *)
Definition txe_until_2 : Hardware :=
  ticking (fun j => if (j <? 2)%nat then 0x40 else 0).

(** A register block with loopback, both buffering modes and both DMA
    requests on besides SWPACT (CR = 0x3F), and both bits of OR set. *)
Definition busy_regs : SWPMI_TypeDef := mkRegs 0x3F 0x10 0x2E0 0 0x7 0 0 0 0x3.

(** A Ready handle on which the application registered its own transfer
    and MspInit callbacks, configured for class C. *)
Definition user_ready_handle : SWPMI_HandleTypeDef :=
  mkHandle (mkInit 0 10 0x8 0x4) HAL_LOCKED HAL_SWPMI_STATE_READY 0
    (Some (UserCallback 1)) (Some HAL_SWPMI_RxHalfCpltCallback)
    (Some (UserCallback 2)) (Some HAL_SWPMI_TxHalfCpltCallback)
    (Some (UserCallback 3)) (Some (UserCallback 7)) None.

(** A fresh handle whose voltage class value has a bit outside the CLASS
    field (bit 0). *)
Definition stray_class_handle : SWPMI_HandleTypeDef :=
  mkHandle (mkInit 0x3 10 0 0) HAL_UNLOCKED HAL_SWPMI_STATE_RESET 0
    None None None None None (Some (UserCallback 7)) None.

Definition idle_engine : Engine := mkEngine HAL_SWPMI_STATE_READY 0 0 [].

(** An engine with an Interrupt transmission in flight. *)
Definition sending_engine : Engine :=
  mkEngine HAL_SWPMI_STATE_BUSY_TX 0 0 [EnableInterrupts Tx].

(** An initialised handle. *)
Definition ready_handle : SWPMI_HandleTypeDef :=
  weak_callbacks (mkInit 0x2 10 0 0) HAL_SWPMI_STATE_READY.

End Samples.

(** * Properties of HAL_SWPMI_Init *)

Import Cmsis Swpmi.

Section InitFacts.
Context {T : Target}.

Lemma assert_param_run (expr : bool) (line : Z) (w : World) :
  exists chk, assert_param expr line w = (tt, w, chk)
              /\ calls chk = [] /\ driver_effects chk = []
              /\ assert_failures chk
                 = if USE_FULL_ASSERT && negb expr then [line] else [].
Proof.
  unfold assert_param, when.
  destruct (USE_FULL_ASSERT && negb expr).
  - exists [EvAssertFailed line]. repeat split.
  - exists []. repeat split.
Qed.

Lemma init_from_reset_run (h : SWPMI_HandleTypeDef) (R : SWPMI_TypeDef) :
  exists h1,
    init_from_reset (mkWorld h R) = (tt, mkWorld h1 R, [EvCall (bring_up_function h)])
    /\ Init h1 = Init h /\ State h1 = State h /\ ErrorCode h1 = ErrorCode h
    /\ Lock h1 = HAL_UNLOCKED
    /\ MspDeInitCallback h1 = MspDeInitCallback h
    /\ (if USE_HAL_SWPMI_REGISTER_CALLBACKS then
          RxCpltCallback h1 = Some HAL_SWPMI_RxCpltCallback
          /\ RxHalfCpltCallback h1 = Some HAL_SWPMI_RxHalfCpltCallback
          /\ TxCpltCallback h1 = Some HAL_SWPMI_TxCpltCallback
          /\ TxHalfCpltCallback h1 = Some HAL_SWPMI_TxHalfCpltCallback
          /\ ErrorCallback h1 = Some HAL_SWPMI_ErrorCallback
          /\ MspInitCallback h1 = Some (bring_up_function h)
        else
          RxCpltCallback h1 = RxCpltCallback h
          /\ RxHalfCpltCallback h1 = RxHalfCpltCallback h
          /\ TxCpltCallback h1 = TxCpltCallback h
          /\ TxHalfCpltCallback h1 = TxHalfCpltCallback h
          /\ ErrorCallback h1 = ErrorCallback h
          /\ MspInitCallback h1 = MspInitCallback h).
Proof.
  unfold init_from_reset, bring_up_function.
  destruct USE_HAL_SWPMI_REGISTER_CALLBACKS.
  - destruct h as [i l s ec c1 c2 c3 c4 c5 [f|] c7];
      eexists; (split; [reflexivity|]); cbn; repeat split.
  - eexists; (split; [reflexivity|]); cbn; repeat split.
Qed.

(** The run of the non-NULL branch: the parameter checks and the bring-up
    block log [pre], which holds no register access and no lifecycle
    transition, and leave the handle [h1]; the configuration follows. *)
Lemma init_body_run (h : SWPMI_HandleTypeDef) (R : SWPMI_TypeDef) :
  exists pre h1,
    init_body (mkWorld h R)
    = (tt, mkWorld (set_State HAL_SWPMI_STATE_BUSY h1)
                   (configured (VoltageClass (Init h)) R),
       pre ++ configuration_effects (VoltageClass (Init h)) R)
    /\ driver_effects pre = []
    /\ assert_failures pre = failed_checks (Init h)
    /\ calls pre
       = (if state_eqb (State h) HAL_SWPMI_STATE_RESET
          then [bring_up_function h] else [])
    /\ (if state_eqb (State h) HAL_SWPMI_STATE_RESET
        then init_from_reset (mkWorld h R)
             = (tt, mkWorld h1 R, [EvCall (bring_up_function h)])
        else h1 = h).
Proof.
  unfold init_body, bind, handle. cbn [hswpmi_obj SWPMI1].
  destruct (assert_param_run (IS_SWPMI_VOLTAGE_CLASS (VoltageClass (Init h))) 251
              (mkWorld h R)) as (k1 & -> & C1 & D1 & A1).
  destruct (assert_param_run (IS_SWPMI_BITRATE_VALUE (BitRate (Init h))) 252
              (mkWorld h R)) as (k2 & -> & C2 & D2 & A2).
  destruct (assert_param_run (IS_SWPMI_TX_BUFFERING_MODE (TxBufferingMode (Init h))) 253
              (mkWorld h R)) as (k3 & -> & C3 & D3 & A3).
  destruct (assert_param_run (IS_SWPMI_RX_BUFFERING_MODE (RxBufferingMode (Init h))) 254
              (mkWorld h R)) as (k4 & -> & C4 & D4 & A4).
  assert (Dk : driver_effects (k1 ++ k2 ++ k3 ++ k4) = []).
  { unfold driver_effects in *. rewrite !filter_app, D1, D2, D3, D4. reflexivity. }
  assert (Ck : calls (k1 ++ k2 ++ k3 ++ k4) = []).
  { unfold calls in *. rewrite !flat_map_app, C1, C2, C3, C4. reflexivity. }
  assert (Ak : assert_failures (k1 ++ k2 ++ k3 ++ k4) = failed_checks (Init h)).
  { unfold assert_failures in *. rewrite !flat_map_app, A1, A2, A3, A4.
    unfold failed_checks. destruct USE_FULL_ASSERT; cbn [andb]; [|reflexivity].
    destruct (IS_SWPMI_VOLTAGE_CLASS _), (IS_SWPMI_BITRATE_VALUE _),
      (IS_SWPMI_TX_BUFFERING_MODE _), (IS_SWPMI_RX_BUFFERING_MODE _);
      reflexivity. }
  destruct (state_eqb (State h) HAL_SWPMI_STATE_RESET) eqn:Est; cbn [when].
  - destruct (init_from_reset_run h R) as (h1 & E & I1 & _).
    rewrite E.
    exists ((k1 ++ k2 ++ k3 ++ k4) ++ [EvCall (bring_up_function h)]), h1.
    unfold assign_State, update, emit, load, store, bind, ret.
    cbn [hswpmi_obj SWPMI1 set_State Init].
    split; [|split; [|split; [|split]]].
    + rewrite I1. unfold configured, configuration_effects.
      rewrite <- !app_assoc. cbn. reflexivity.
    + unfold driver_effects in *. rewrite filter_app, Dk. reflexivity.
    + unfold assert_failures in *. rewrite flat_map_app, Ak. cbn.
      apply app_nil_r.
    + unfold calls in *. rewrite flat_map_app, Ck. reflexivity.
    + reflexivity.
  - exists (k1 ++ k2 ++ k3 ++ k4), h.
    unfold assign_State, update, emit, load, store, bind, ret.
    cbn [hswpmi_obj SWPMI1].
    split; [|split; [|split; [|split]]]; auto.
    unfold configured, configuration_effects.
    rewrite <- !app_assoc. cbn. reflexivity.
Qed.

Lemma HAL_SWPMI_Init_run (h : SWPMI_HandleTypeDef) (R : SWPMI_TypeDef) :
  exists pre h1,
    HAL_SWPMI_Init HandleAddr (mkWorld h R)
    = (HAL_OK, mkWorld (set_State HAL_SWPMI_STATE_BUSY h1)
                       (configured (VoltageClass (Init h)) R),
       pre ++ configuration_effects (VoltageClass (Init h)) R)
    /\ driver_effects pre = []
    /\ assert_failures pre = failed_checks (Init h)
    /\ calls pre
       = (if state_eqb (State h) HAL_SWPMI_STATE_RESET
          then [bring_up_function h] else [])
    /\ (if state_eqb (State h) HAL_SWPMI_STATE_RESET
        then init_from_reset (mkWorld h R)
             = (tt, mkWorld h1 R, [EvCall (bring_up_function h)])
        else h1 = h).
Proof.
  destruct (init_body_run h R) as (pre & h1 & E & F).
  exists pre, h1. split; [|exact F].
  unfold HAL_SWPMI_Init, bind, ret. rewrite E. cbn.
  rewrite app_nil_r. reflexivity.
Qed.

(** Replace the run by its value [E] and project it. *)
Ltac open_run E :=
  cbv zeta; rewrite E; unfold result, log, world;
  cbn [fst snd hswpmi_obj SWPMI1].

Lemma driver_effects_run (pre : list event) (vc : Z) (R : SWPMI_TypeDef) :
  driver_effects pre = [] ->
  driver_effects (pre ++ configuration_effects vc R) = configuration_effects vc R.
Proof.
  intros D. unfold driver_effects in *. rewrite filter_app, D. reflexivity.
Qed.

Lemma calls_run (pre : list event) (vc : Z) (R : SWPMI_TypeDef) :
  calls (pre ++ configuration_effects vc R) = calls pre.
Proof.
  unfold calls. rewrite flat_map_app. cbn. apply app_nil_r.
Qed.

Lemma assert_failures_run (pre : list event) (vc : Z) (R : SWPMI_TypeDef) :
  assert_failures (pre ++ configuration_effects vc R) = assert_failures pre.
Proof.
  unfold assert_failures. rewrite flat_map_app. cbn. apply app_nil_r.
Qed.

Lemma state_eqb_eq (a b : HAL_SWPMI_StateTypeDef) :
  state_eqb a b = true <-> a = b.
Proof.
  destruct a, b; cbn; split; intros E; try reflexivity; discriminate E.
Qed.

Lemma not_reset (s : HAL_SWPMI_StateTypeDef) :
  busy_timeout_or_error s = true -> state_eqb s HAL_SWPMI_STATE_RESET = false.
Proof.
  destruct s; cbn; intros E; try reflexivity; discriminate E.
Qed.

(** Bit [m] of a register is clear once [CLEAR_BIT(REG, m)] is stored. *)
Lemma CLEAR_BIT_clears (x m : Z) : Z.land (CLEAR_BIT x m) m = 0.
Proof.
  unfold CLEAR_BIT, not32, uint32_t.
  apply Z.bits_inj'. intros n Hn.
  rewrite Z.bits_0, !Z.land_spec.
  destruct (Z.ltb_spec n 32) as [Hlt|Hge].
  - rewrite Z.mod_pow2_bits_low by lia.
    rewrite Z.lnot_spec by lia.
    destruct (Z.testbit x n), (Z.testbit m n); reflexivity.
  - rewrite Z.mod_pow2_bits_high by lia.
    rewrite andb_false_r. reflexivity.
Qed.

(** C2: a call of init with a NULL handle yields the error status (the
    driver's InvalidHandle), and leaves the handle object and every register
    as they were, with no effect logged. *)
Theorem init_null_handle (w : World) :
  HAL_SWPMI_Init NULL w = (HAL_ERROR, w, []).
Proof.
  reflexivity.
Qed.

(** C1, as the code has it: init has no guard on the lifecycle state.
    From any Busy state, Timeout or Error, a call with a non-NULL handle
    reports no error, runs no bring-up, moves the handle to Busy, disables
    the interface, clears the flags and writes the voltage class. *)
Theorem init_proceeds_from_any_state (w : World) :
  busy_timeout_or_error (State (hswpmi_obj w)) = true ->
  let r := HAL_SWPMI_Init HandleAddr w in
  result r = HAL_OK
  /\ calls (log r) = []
  /\ driver_effects (log r)
     = configuration_effects (VoltageClass (Init (hswpmi_obj w))) (SWPMI1 w)
  /\ hswpmi_obj (world r) = set_State HAL_SWPMI_STATE_BUSY (hswpmi_obj w)
  /\ SWPMI1 (world r)
     = configured (VoltageClass (Init (hswpmi_obj w))) (SWPMI1 w).
Proof.
  destruct w as [h R]. cbn [hswpmi_obj SWPMI1]. intros B.
  destruct (HAL_SWPMI_Init_run h R) as (pre & h1 & E & D & _ & C & F).
  rewrite (not_reset _ B) in C, F. subst h1.
  open_run E.
  rewrite calls_run, (driver_effects_run _ _ _ D). auto.
Qed.

(** C3, as the code has it: the parameter checks are [assert_param]
    checks and produce no status.  With a non-NULL handle whose
    configuration fails validation, init reports no error and configures
    the peripheral with the values given; the failing checks reach the
    [assert_failed] hook exactly when USE_FULL_ASSERT is defined. *)
Theorem init_does_not_reject_invalid_config (w : World) :
  config_valid (Init (hswpmi_obj w)) = false ->
  let r := HAL_SWPMI_Init HandleAddr w in
  result r = HAL_OK
  /\ driver_effects (log r)
     = configuration_effects (VoltageClass (Init (hswpmi_obj w))) (SWPMI1 w)
  /\ SWPMI1 (world r)
     = configured (VoltageClass (Init (hswpmi_obj w))) (SWPMI1 w)
  /\ (assert_failures (log r) = [] <-> USE_FULL_ASSERT = false).
Proof.
  destruct w as [h R]. cbn [hswpmi_obj SWPMI1]. intros V.
  destruct (HAL_SWPMI_Init_run h R) as (pre & h1 & E & D & A & _).
  open_run E.
  rewrite assert_failures_run, (driver_effects_run _ _ _ D), A.
  repeat split; auto.
  - unfold failed_checks. destruct USE_FULL_ASSERT; [|reflexivity].
    unfold config_valid in V.
    destruct (IS_SWPMI_VOLTAGE_CLASS _), (IS_SWPMI_BITRATE_VALUE _),
      (IS_SWPMI_TX_BUFFERING_MODE _), (IS_SWPMI_RX_BUFFERING_MODE _);
      cbn in *; discriminate.
  - intros U. unfold failed_checks. rewrite U. reflexivity.
Qed.

(** C9: with the callback registration feature on, init from Reset sets
    the five transfer callbacks to the weak defaults whatever they held;
    the MspInit slot is given the weak default only when it is NULL, and a
    callback registered there beforehand is kept and is the function called
    for the bring-up. *)
Theorem init_reset_callbacks (w : World) :
  USE_HAL_SWPMI_REGISTER_CALLBACKS = true ->
  State (hswpmi_obj w) = HAL_SWPMI_STATE_RESET ->
  let h := hswpmi_obj w in
  let r := HAL_SWPMI_Init HandleAddr w in
  let h' := hswpmi_obj (world r) in
  RxCpltCallback h' = Some HAL_SWPMI_RxCpltCallback
  /\ RxHalfCpltCallback h' = Some HAL_SWPMI_RxHalfCpltCallback
  /\ TxCpltCallback h' = Some HAL_SWPMI_TxCpltCallback
  /\ TxHalfCpltCallback h' = Some HAL_SWPMI_TxHalfCpltCallback
  /\ ErrorCallback h' = Some HAL_SWPMI_ErrorCallback
  /\ (MspInitCallback h = None ->
      MspInitCallback h' = Some HAL_SWPMI_MspInit
      /\ calls (log r) = [HAL_SWPMI_MspInit])
  /\ (forall f, MspInitCallback h = Some f ->
      MspInitCallback h' = Some f /\ calls (log r) = [f]).
Proof.
  destruct w as [h R]. cbn [hswpmi_obj SWPMI1]. intros U S.
  destruct (HAL_SWPMI_Init_run h R) as (pre & h1 & E & _ & _ & C & F).
  rewrite S in C, F. cbn [state_eqb] in C, F.
  destruct (init_from_reset_run h R) as (h2 & E2 & _ & _ & _ & _ & _ & K).
  rewrite E2 in F. injection F as <-.
  rewrite U in K. destruct K as (K1 & K2 & K3 & K4 & K5 & K6).
  open_run E.
  rewrite calls_run, C.
  unfold bring_up_function in *. rewrite U in *.
  cbn [set_State RxCpltCallback RxHalfCpltCallback TxCpltCallback
       TxHalfCpltCallback ErrorCallback MspInitCallback].
  rewrite K6.
  repeat (split; [assumption|]).
  split.
  - intros N. rewrite N. split; reflexivity.
  - intros f N. rewrite N. split; reflexivity.
Qed.

(** C10: every init call with a non-NULL handle, whatever the state at
    entry, sets the state to Busy, then clears SWPACT in CR, then writes
    0x019F to ICR, and only then applies the voltage class to OR: the
    SWPACT bit of CR is clear when OR is written. *)
Theorem init_disables_before_configuring (w : World) :
  let r := HAL_SWPMI_Init HandleAddr w in
  driver_effects (log r)
  = [ EvState HAL_SWPMI_STATE_BUSY;
      EvLoad CR (rd CR (SWPMI1 w));
      EvStore CR (CLEAR_BIT (rd CR (SWPMI1 w)) SWPMI_CR_SWPACT);
      EvStore ICR 0x019F;
      EvLoad OR (rd OR (SWPMI1 w));
      EvStore OR (MODIFY_REG (rd OR (SWPMI1 w)) SWPMI_OR_CLASS
                    (VoltageClass (Init (hswpmi_obj w)))) ]
  /\ State (hswpmi_obj (world r)) = HAL_SWPMI_STATE_BUSY
  /\ Z.land (rd CR (SWPMI1 (world r))) SWPMI_CR_SWPACT = 0
  /\ rd ICR (SWPMI1 (world r)) = 0x019F
  /\ rd OR (SWPMI1 (world r))
     = MODIFY_REG (rd OR (SWPMI1 w)) SWPMI_OR_CLASS
         (VoltageClass (Init (hswpmi_obj w))).
Proof.
  destruct w as [h R]. cbn [hswpmi_obj SWPMI1].
  destruct (HAL_SWPMI_Init_run h R) as (pre & h1 & E & D & _).
  open_run E.
  rewrite (driver_effects_run _ _ _ D).
  repeat split. apply CLEAR_BIT_clears.
Qed.

End InitFacts.

(** ** The initialisation on sample handles *)

Section InitSamples.
Import Samples.

Lemma init_proceeds_from_any_state_witness :
  let w := mkWorld busy_tx_handle active_regs in
  busy_timeout_or_error (State (hswpmi_obj w)) = true
  /\ (let r := @HAL_SWPMI_Init stm32l4 HandleAddr w in
      result r = HAL_OK
      /\ calls (log r) = []
      /\ driver_effects (log r)
         = @configuration_effects stm32l4
             (VoltageClass (Init (hswpmi_obj w))) (SWPMI1 w)
      /\ hswpmi_obj (world r) = set_State HAL_SWPMI_STATE_BUSY (hswpmi_obj w)
      /\ SWPMI1 (world r)
         = @configured stm32l4 (VoltageClass (Init (hswpmi_obj w))) (SWPMI1 w)).
Proof.
  split.
  - reflexivity.
  - apply (@init_proceeds_from_any_state stm32l4
             (mkWorld busy_tx_handle active_regs)).
    reflexivity.
Defined.

(** C1 as stated fails: a handle in BusyTx is not turned away.  Init
    reports no error, moves the handle to Busy and rewrites CR, ICR and
    OR. *)
Lemma init_from_busy_tx_reconfigures :
  let w := mkWorld busy_tx_handle active_regs in
  let r := @HAL_SWPMI_Init stm32l4 HandleAddr w in
  State (hswpmi_obj w) = HAL_SWPMI_STATE_BUSY_TX
  /\ result r = HAL_OK
  /\ log r = [ EvState HAL_SWPMI_STATE_BUSY;
               EvLoad CR 0x20; EvStore CR 0;
               EvStore ICR 0x019F;
               EvLoad OR 0; EvStore OR 0x2 ]
  /\ State (hswpmi_obj (world r)) = HAL_SWPMI_STATE_BUSY
  /\ SWPMI1 (world r) = mkRegs 0 0 0 0x019F 0 0 0 0 0x2
  /\ SWPMI1 (world r) <> SWPMI1 w.
Proof.
  cbv zeta. repeat split; try reflexivity.
  vm_compute. discriminate.
Qed.

Lemma init_does_not_reject_invalid_config_witness :
  let w := mkWorld bad_bitrate_handle active_regs in
  @config_valid stm32l4 (Init (hswpmi_obj w)) = false
  /\ (let r := @HAL_SWPMI_Init stm32l4 HandleAddr w in
      result r = HAL_OK
      /\ driver_effects (log r)
         = @configuration_effects stm32l4
             (VoltageClass (Init (hswpmi_obj w))) (SWPMI1 w)
      /\ SWPMI1 (world r)
         = @configured stm32l4 (VoltageClass (Init (hswpmi_obj w))) (SWPMI1 w)
      /\ (assert_failures (log r) = [] <-> @USE_FULL_ASSERT stm32l4 = false)).
Proof.
  split.
  - reflexivity.
  - apply (@init_does_not_reject_invalid_config stm32l4
             (mkWorld bad_bitrate_handle active_regs)).
    reflexivity.
Defined.

(** C3 as stated fails: with a bit rate prescaler of 1000, which the
    parameter check refuses, init reports no error and rewrites CR, ICR and
    OR. *)
Lemma init_accepts_bad_bitrate :
  let w := mkWorld bad_bitrate_handle active_regs in
  let r := @HAL_SWPMI_Init stm32l4 HandleAddr w in
  @IS_SWPMI_BITRATE_VALUE stm32l4 (BitRate (Init (hswpmi_obj w))) = false
  /\ @config_valid stm32l4 (Init (hswpmi_obj w)) = false
  /\ result r = HAL_OK
  /\ log r = [ EvState HAL_SWPMI_STATE_BUSY;
               EvLoad CR 0x20; EvStore CR 0;
               EvStore ICR 0x019F;
               EvLoad OR 0; EvStore OR 0x2 ]
  /\ SWPMI1 (world r) = mkRegs 0 0 0 0x019F 0 0 0 0 0x2.
Proof.
  cbv zeta. repeat split; reflexivity.
Qed.

(** With USE_FULL_ASSERT defined the refused bit rate reaches the
    [assert_failed] hook (line 252), and the outcome is the same. *)
Example init_bad_bitrate_full_assert :
  let w := mkWorld bad_bitrate_handle active_regs in
  let r := @HAL_SWPMI_Init stm32l4_full_assert HandleAddr w in
  result r = HAL_OK
  /\ log r = [ EvAssertFailed 252;
               EvState HAL_SWPMI_STATE_BUSY;
               EvLoad CR 0x20; EvStore CR 0;
               EvStore ICR 0x019F;
               EvLoad OR 0; EvStore OR 0x2 ].
Proof.
  cbv zeta. split; reflexivity.
Qed.

Lemma init_reset_callbacks_witness :
  (let w := mkWorld fresh_handle_user_msp active_regs in
   let r := @HAL_SWPMI_Init stm32l4 HandleAddr w in
   State (hswpmi_obj w) = HAL_SWPMI_STATE_RESET
   /\ RxCpltCallback (hswpmi_obj w) = Some (UserCallback 1)
   /\ RxCpltCallback (hswpmi_obj (world r)) = Some HAL_SWPMI_RxCpltCallback
   /\ MspInitCallback (hswpmi_obj (world r)) = Some (UserCallback 7)
   /\ calls (log r) = [UserCallback 7])
  /\ (let w := mkWorld fresh_handle active_regs in
      let r := @HAL_SWPMI_Init stm32l4 HandleAddr w in
      MspInitCallback (hswpmi_obj (world r)) = Some HAL_SWPMI_MspInit
      /\ calls (log r) = [HAL_SWPMI_MspInit]).
Proof.
  split.
  - pose proof (@init_reset_callbacks stm32l4
                  (mkWorld fresh_handle_user_msp active_regs)
                  eq_refl eq_refl) as P.
    cbv zeta in P.
    destruct P as (P1 & _ & _ & _ & _ & _ & P7).
    destruct (P7 (UserCallback 7) eq_refl) as (Q1 & Q2).
    cbv zeta. split; [reflexivity|]. split; [reflexivity|].
    split; [exact P1|]. split; [exact Q1 | exact Q2].
  - pose proof (@init_reset_callbacks stm32l4
                  (mkWorld fresh_handle active_regs)
                  eq_refl eq_refl) as P.
    cbv zeta in P.
    destruct P as (_ & _ & _ & _ & _ & P6 & _).
    exact (P6 eq_refl).
Defined.

(** The whole run on the fresh handle with a registered MspInit. *)
Example init_fresh_handle_user_msp :
  let r := @HAL_SWPMI_Init stm32l4 HandleAddr
             (mkWorld fresh_handle_user_msp active_regs) in
  result r = HAL_OK
  /\ log r = [ EvCall (UserCallback 7);
               EvState HAL_SWPMI_STATE_BUSY;
               EvLoad CR 0x20; EvStore CR 0;
               EvStore ICR 0x019F;
               EvLoad OR 0; EvStore OR 0x2 ]
  /\ Lock (hswpmi_obj (world r)) = HAL_UNLOCKED.
Proof.
  cbv zeta. repeat split; reflexivity.
Qed.

End InitSamples.

(** * Properties of the modelled contracts *)

Section ContractFacts.
Import Contract.

(** C5: a callback of a kind other than the Msp kinds is registered only
    while the handle is Ready, and the call returns InvalidState from every
    other state, the Busy states among them; the Msp kinds are accepted in
    Reset as well. *)
Theorem register_state_guard (kind : CallbackKind) (handler : callback)
    (h : SWPMI_HandleTypeDef) :
  let r := register kind handler h in
  (is_msp_kind kind = false ->
     (fst r = Ok <-> State h = HAL_SWPMI_STATE_READY)
     /\ (State h <> HAL_SWPMI_STATE_READY -> r = (InvalidState, h)))
  /\ (busy_timeout_or_error (State h) = true -> r = (InvalidState, h))
  /\ (State h = HAL_SWPMI_STATE_READY ->
      r = (Ok, set_slot kind (Some handler) h))
  /\ (is_msp_kind kind = true -> State h = HAL_SWPMI_STATE_RESET ->
      r = (Ok, set_slot kind (Some handler) h)).
Proof.
  unfold register. cbv zeta.
  split; [|split; [|split]].
  - intros M. rewrite M. split; [split|].
    + destruct (State h); intros E; try reflexivity; discriminate E.
    + intros ->. reflexivity.
    + intros N. destruct (State h); try reflexivity.
      contradiction N. reflexivity.
  - destruct (State h); cbn; intros B; try reflexivity; discriminate B.
  - intros ->. reflexivity.
  - intros M ->. rewrite M. reflexivity.
Qed.

(** C6: a transmit or receive call, in any mode, made while the handle is
    not Ready fails with Busy and leaves the engine as it was: no register
    activity, no flag poll, the same state.  So a second transfer requested
    while an accepted Interrupt or DMA transfer is in flight is refused. *)
Theorem transfer_refused_unless_ready
    (ready : Direction -> SWPMI_TypeDef -> bool) (hw : Hardware) (fuel : nat)
    (timeoutBound : Z) (d : Direction) (buffer : list Z) (n : nat)
    (mode : Mode) (e : Engine) :
  state e <> HAL_SWPMI_STATE_READY ->
  transfer ready hw fuel timeoutBound d buffer n mode e = Some (Busy, e)
  /\ forall d0 buffer0 n0 mode0 e0 e1,
       transfer ready hw fuel timeoutBound d0 buffer0 (S n0) mode0 e0 = Some (Ok, e1) ->
       mode0 <> Poll ->
       transfer ready hw fuel timeoutBound d buffer n mode e1 = Some (Busy, e1).
Proof.
  assert (R : forall x, state x <> HAL_SWPMI_STATE_READY ->
                        transfer ready hw fuel timeoutBound d buffer n mode x
                        = Some (Busy, x)).
  { intros x N. unfold transfer.
    destruct (state_eqb (state x) HAL_SWPMI_STATE_READY) eqn:E; [|reflexivity].
    apply state_eqb_eq in E. contradiction. }
  intros N. split; [apply R, N|].
  intros d0 buffer0 n0 mode0 e0 e1 A P. apply R.
  unfold transfer in A.
  destruct (negb (state_eqb (state e0) HAL_SWPMI_STATE_READY)).
  - injection A as A _. discriminate A.
  - destruct mode0; [contradiction P; reflexivity| |];
      injection A as <-; destruct d0; discriminate.
Qed.

(** C8: a transmit or receive call of length zero on a Ready handle, in
    any mode, completes at once with transferred-count 0; it issues no
    register activity and no flag poll, and the handle stays Ready. *)
Theorem zero_length_transfer
    (ready : Direction -> SWPMI_TypeDef -> bool) (hw : Hardware) (fuel : nat)
    (timeoutBound : Z) (d : Direction) (buffer : list Z) (mode : Mode)
    (e : Engine) :
  state e = HAL_SWPMI_STATE_READY ->
  exists e',
    transfer ready hw fuel timeoutBound d buffer 0 mode e = Some (Ok, e')
    /\ transferred e' = 0%nat
    /\ activity e' = activity e
    /\ ticks e' = ticks e
    /\ state e' = HAL_SWPMI_STATE_READY.
Proof.
  intros S. unfold transfer. rewrite S. cbn.
  eexists. split; [reflexivity|]. repeat split.
Qed.

(** The wait ends at the first observation [n] where the predicate holds
    or the elapsed time exceeds the bound, given fuel to reach it. *)
Lemma waitUntil_first_exit (predicate : SWPMI_TypeDef -> bool)
    (startTime timeoutBound : Z) (hw : Hardware) (n : nat) :
  forall (fuel i : nat),
    (i <= n)%nat ->
    (forall j, (i <= j < n)%nat ->
       predicate (regs (hw j)) = false
       /\ now (hw j) - startTime <= timeoutBound) ->
    (n - i < fuel)%nat ->
    predicate (regs (hw n)) = true \/ timeoutBound < now (hw n) - startTime ->
    waitUntil predicate startTime timeoutBound hw i fuel
    = Some (if predicate (regs (hw n)) then Ok else Timeout, n).
Proof.
  induction fuel as [|fuel IH]; intros i Hin Hbefore Hfuel Hexit; [lia|].
  cbn [waitUntil].
  destruct (Nat.eq_dec i n) as [->|Hne].
  - destruct (predicate (regs (hw n))); [reflexivity|].
    destruct Hexit as [Hp|Ht]; [discriminate Hp|].
    apply Z.ltb_lt in Ht. rewrite Ht. reflexivity.
  - destruct (Hbefore i ltac:(lia)) as [Hp Ht].
    rewrite Hp.
    destruct (Z.ltb_spec timeoutBound (now (hw i) - startTime)); [lia|].
    apply IH; try lia; auto.
    intros j Hj. apply Hbefore. lia.
Qed.

(** Conversely, whatever the wait returns was reached that way. *)
Lemma waitUntil_exit_is_first (predicate : SWPMI_TypeDef -> bool)
    (startTime timeoutBound : Z) (hw : Hardware) (r : Outcome) (n : nat) :
  forall (fuel i : nat),
    waitUntil predicate startTime timeoutBound hw i fuel = Some (r, n) ->
    (i <= n)%nat
    /\ (forall j, (i <= j < n)%nat ->
          predicate (regs (hw j)) = false
          /\ now (hw j) - startTime <= timeoutBound)
    /\ ((r = Ok /\ predicate (regs (hw n)) = true)
        \/ (r = Timeout /\ predicate (regs (hw n)) = false
            /\ timeoutBound < now (hw n) - startTime)).
Proof.
  induction fuel as [|fuel IH]; intros i W; [discriminate W|].
  cbn [waitUntil] in W.
  destruct (predicate (regs (hw i))) eqn:Hp.
  - injection W as <- <-. split; [lia|]. split; [intros j Hj; lia|]. auto.
  - destruct (Z.ltb_spec timeoutBound (now (hw i) - startTime)) as [Ht|Ht].
    + injection W as <- <-. split; [lia|]. split; [intros j Hj; lia|]. auto.
    + destruct (IH _ W) as (Hle & Hbefore & Hexit).
      split; [lia|]. split; [|exact Hexit].
      intros j Hj. destruct (Nat.eq_dec j i) as [->|Hne]; [auto|].
      apply Hbefore. lia.
Qed.

(** The units completed by a Poll transfer are the data transactions it
    issued, and a Timeout leaves some unit untransferred. *)
Lemma poll_units_count (ready : SWPMI_TypeDef -> bool) (d : Direction)
    (buffer : list Z) (startTime timeoutBound : Z) (hw : Hardware)
    (fuel : nat) :
  forall (remaining : nat) (e e' : Engine) (r : Outcome),
    poll_units ready d buffer startTime timeoutBound hw fuel remaining e
    = Some (r, e') ->
    exists done,
      activity e' = activity e ++ done
      /\ (transferred e' = transferred e + List.length done)%nat
      /\ forallb is_data_unit done = true
      /\ ((r = Ok /\ List.length done = remaining
           /\ state e' = HAL_SWPMI_STATE_READY)
          \/ (r = Timeout /\ (List.length done < remaining)%nat
              /\ state e' = HAL_SWPMI_STATE_TIMEOUT)).
Proof.
  induction remaining as [|remaining IH]; intros e e' r P; cbn [poll_units] in P.
  - injection P as <- <-. exists []. cbn.
    rewrite app_nil_r, Nat.add_0_r.
    repeat split. left. repeat split.
  - destruct (waitUntil ready startTime timeoutBound hw (ticks e) fuel)
      as [[o i]|]; [|discriminate P].
    destruct o;
      try (injection P as <- <-; exists []; cbn;
           rewrite app_nil_r, Nat.add_0_r;
           repeat split; auto; right; repeat split; lia).
    destruct (IH _ _ _ P) as (done & A & C & F & O).
    cbn [complete_unit activity transferred state] in A, C.
    eexists (_ :: done). rewrite <- app_assoc in A. cbn [app] in A.
    split; [exact A|]. split; [cbn [List.length]; lia|].
    split; [cbn; exact F|].
    cbn [List.length].
    destruct O as [(-> & L & S)|(-> & L & S)]; [left|right];
      repeat split; auto; lia.
Qed.

(** C7: the shared wait returns at the first observation where the
    predicate holds or the elapsed time exceeds the bound: Ok when the
    predicate holds there, Timeout when it does not; and it returns nothing
    else.  A Poll transfer whose ready flag never sets ends in Timeout at
    the first observation past the bound, with transferred-count 0 and no
    data transaction; in general the transferred-count of a timed-out Poll
    transfer is the number of data transactions it issued, below the
    requested length. *)
Theorem waitUntil_and_poll_timeout :
  (forall predicate startTime timeoutBound hw i n fuel,
     (i <= n)%nat ->
     (forall j, (i <= j < n)%nat ->
        predicate (regs (hw j)) = false
        /\ now (hw j) - startTime <= timeoutBound) ->
     (n - i < fuel)%nat ->
     (predicate (regs (hw n)) = true ->
      waitUntil predicate startTime timeoutBound hw i fuel = Some (Ok, n))
     /\ (predicate (regs (hw n)) = false ->
         timeoutBound < now (hw n) - startTime ->
         waitUntil predicate startTime timeoutBound hw i fuel
         = Some (Timeout, n)))
  /\ (forall predicate startTime timeoutBound hw i fuel r n,
       waitUntil predicate startTime timeoutBound hw i fuel = Some (r, n) ->
       (i <= n)%nat
       /\ (forall j, (i <= j < n)%nat ->
             predicate (regs (hw j)) = false
             /\ now (hw j) - startTime <= timeoutBound)
       /\ ((r = Ok /\ predicate (regs (hw n)) = true)
           \/ (r = Timeout /\ predicate (regs (hw n)) = false
               /\ timeoutBound < now (hw n) - startTime)))
  /\ (forall ready hw fuel timeoutBound d buffer len e n,
       state e = HAL_SWPMI_STATE_READY ->
       (0 < len)%nat ->
       (forall j, (ticks e <= j)%nat -> ready d (regs (hw j)) = false) ->
       (ticks e <= n)%nat ->
       (forall j, (ticks e <= j < n)%nat ->
          now (hw j) - now (hw (ticks e)) <= timeoutBound) ->
       timeoutBound < now (hw n) - now (hw (ticks e)) ->
       (n - ticks e < fuel)%nat ->
       transfer ready hw fuel timeoutBound d buffer len Poll e
       = Some (Timeout,
               mkEngine HAL_SWPMI_STATE_TIMEOUT 0 (S n) (activity e)))
  /\ (forall ready hw fuel timeoutBound d buffer len e e',
       state e = HAL_SWPMI_STATE_READY ->
       transfer ready hw fuel timeoutBound d buffer len Poll e
       = Some (Timeout, e') ->
       exists done,
         activity e' = activity e ++ done
         /\ forallb is_data_unit done = true
         /\ transferred e' = List.length done
         /\ (transferred e' < len)%nat
         /\ state e' = HAL_SWPMI_STATE_TIMEOUT).
Proof.
  split; [|split; [|split]].
  - intros predicate startTime timeoutBound hw i n fuel Hin Hbefore Hfuel.
    split.
    + intros Hp.
      rewrite (waitUntil_first_exit _ _ _ _ n fuel i Hin Hbefore Hfuel (or_introl Hp)).
      rewrite Hp. reflexivity.
    + intros Hp Ht.
      rewrite (waitUntil_first_exit _ _ _ _ n fuel i Hin Hbefore Hfuel (or_intror Ht)).
      rewrite Hp. reflexivity.
  - intros predicate startTime timeoutBound hw i fuel r n W.
    exact (waitUntil_exit_is_first _ _ _ _ _ _ _ _ W).
  - intros ready hw fuel timeoutBound d buffer len e n S L Hnever Hn Hbefore Ht Hfuel.
    unfold transfer. rewrite S. cbn [state_eqb negb].
    destruct len as [|len]; [lia|].
    cbn [poll_units ticks].
    rewrite (waitUntil_first_exit (ready d) _ _ hw n fuel (ticks e) Hn).
    + rewrite (Hnever n Hn). reflexivity.
    + intros j Hj. split; [apply Hnever; lia | apply Hbefore, Hj].
    + exact Hfuel.
    + right. exact Ht.
  - intros ready hw fuel timeoutBound d buffer len e e' S P.
    unfold transfer in P. rewrite S in P. cbn [state_eqb negb] in P.
    destruct len as [|len]; [discriminate P|].
    apply poll_units_count in P.
    destruct P as (done & A & C & F & [(E & _)|(_ & L & St)]); [discriminate E|].
    cbn [activity transferred] in A, C.
    exists done. repeat split; auto; lia.
Qed.

End ContractFacts.

(** ** The contracts on sample data *)

Section ContractSamples.
Import Contract Samples.

Lemma register_state_guard_witness :
  (fst (register TxComplete (UserCallback 3) ready_handle) = Ok
   <-> State ready_handle = HAL_SWPMI_STATE_READY)
  /\ register TxComplete (UserCallback 3) fresh_handle = (InvalidState, fresh_handle)
  /\ register RxComplete (UserCallback 3) busy_tx_handle = (InvalidState, busy_tx_handle)
  /\ register ErrorKind (UserCallback 3) ready_handle
     = (Ok, set_slot ErrorKind (Some (UserCallback 3)) ready_handle)
  /\ register MspInit (UserCallback 7) fresh_handle
     = (Ok, set_slot MspInit (Some (UserCallback 7)) fresh_handle).
Proof.
  split; [|split; [|split; [|split]]].
  - exact (proj1 (proj1 (register_state_guard TxComplete (UserCallback 3)
                           ready_handle) eq_refl)).
  - apply (proj2 (proj1 (register_state_guard TxComplete (UserCallback 3)
                           fresh_handle) eq_refl)).
    cbn. discriminate.
  - exact (proj1 (proj2 (register_state_guard RxComplete (UserCallback 3)
                           busy_tx_handle)) eq_refl).
  - exact (proj1 (proj2 (proj2 (register_state_guard ErrorKind (UserCallback 3)
                                  ready_handle))) eq_refl).
  - exact (proj2 (proj2 (proj2 (register_state_guard MspInit (UserCallback 7)
                                  fresh_handle))) eq_refl eq_refl).
Defined.

Lemma transfer_refused_unless_ready_witness :
  state sending_engine <> HAL_SWPMI_STATE_READY
  /\ transfer isr_flag silent 10 5 Tx [1; 2] 2 Poll sending_engine
     = Some (Busy, sending_engine)
  /\ transfer isr_flag silent 10 5 Tx [1; 2] 2 Interrupt idle_engine
     = Some (Ok, sending_engine)
  /\ transfer isr_flag silent 10 5 Tx [3; 4] 2 DMA sending_engine
     = Some (Busy, sending_engine).
Proof.
  assert (N : state sending_engine <> HAL_SWPMI_STATE_READY)
    by (cbn; discriminate).
  split; [exact N|]. split; [|split].
  - exact (proj1 (transfer_refused_unless_ready isr_flag silent 10 5 Tx [1; 2] 2
                    Poll sending_engine N)).
  - reflexivity.
  - apply (proj2 (transfer_refused_unless_ready isr_flag silent 10 5 Tx [3; 4] 2
                    DMA sending_engine N)
             Tx [1; 2] 1%nat Interrupt idle_engine sending_engine).
    + reflexivity.
    + discriminate.
Defined.

Lemma zero_length_transfer_witness :
  state idle_engine = HAL_SWPMI_STATE_READY
  /\ exists e',
       transfer isr_flag silent 10 5 Rx [] 0 Poll idle_engine = Some (Ok, e')
       /\ transferred e' = 0%nat
       /\ activity e' = activity idle_engine
       /\ ticks e' = ticks idle_engine
       /\ state e' = HAL_SWPMI_STATE_READY.
Proof.
  split.
  - reflexivity.
  - apply (zero_length_transfer isr_flag silent 10 5 Rx [] Poll idle_engine).
    reflexivity.
Defined.

Lemma waitUntil_and_poll_timeout_witness :
  waitUntil (isr_flag Tx) 0 5 txe_from_2 0 10 = Some (Ok, 2%nat)
  /\ waitUntil (isr_flag Tx) 0 5 silent 0 10 = Some (Timeout, 6%nat)
  /\ transfer isr_flag silent 10 5 Tx [1; 2; 3] 3 Poll idle_engine
     = Some (Timeout, mkEngine HAL_SWPMI_STATE_TIMEOUT 0 7 [])
  /\ (transfer isr_flag txe_until_2 10 5 Tx [1; 2; 3] 3 Poll idle_engine
      = Some (Timeout,
              mkEngine HAL_SWPMI_STATE_TIMEOUT 2 7 [DataUnit Tx 1; DataUnit Tx 2])
      /\ exists done,
           [DataUnit Tx 1; DataUnit Tx 2] = activity idle_engine ++ done
           /\ forallb is_data_unit done = true
           /\ 2%nat = List.length done
           /\ (2 < 3)%nat
           /\ HAL_SWPMI_STATE_TIMEOUT = HAL_SWPMI_STATE_TIMEOUT).
Proof.
  destruct waitUntil_and_poll_timeout as (W1 & _ & P1 & P2).
  split; [|split; [|split; [|split]]].
  - refine (proj1 (W1 (isr_flag Tx) 0 5 txe_from_2 0%nat 2%nat 10%nat _ _ _) _).
    + lia.
    + intros j Hj.
      assert (E : j = 0%nat \/ j = 1%nat) by lia.
      destruct E as [-> | ->]; split; cbn; (reflexivity || lia).
    + lia.
    + reflexivity.
  - refine (proj2 (W1 (isr_flag Tx) 0 5 silent 0%nat 6%nat 10%nat _ _ _) _ _).
    + lia.
    + intros j Hj. split; [reflexivity|]. cbn. lia.
    + lia.
    + reflexivity.
    + cbn. lia.
  - apply (P1 isr_flag silent 10%nat 5 Tx [1; 2; 3] 3%nat idle_engine 6%nat).
    + reflexivity.
    + lia.
    + intros j Hj. reflexivity.
    + cbn. lia.
    + intros j Hj. cbn. lia.
    + cbn. lia.
    + cbn. lia.
  - reflexivity.
  - apply (P2 isr_flag txe_until_2 10%nat 5 Tx [1; 2; 3] 3%nat idle_engine
             (mkEngine HAL_SWPMI_STATE_TIMEOUT 2 7 [DataUnit Tx 1; DataUnit Tx 2])).
    + reflexivity.
    + reflexivity.
Defined.

End ContractSamples.

(** * Further properties of HAL_SWPMI_Init

    What the statements of lines 238-290 do to the registers bit by bit, in
    which order they act, and what they leave alone. *)

Section RegisterMacros.

Lemma not32_spec (m n : Z) :
  0 <= n -> Z.testbit (not32 m) n = (n <? 32) && negb (Z.testbit m n).
Proof.
  intros Hn. unfold not32, uint32_t.
  destruct (Z.ltb_spec n 32) as [Hlt|Hge]; cbn [andb].
  - rewrite Z.mod_pow2_bits_low by lia. apply Z.lnot_spec, Hn.
  - apply Z.mod_pow2_bits_high. lia.
Qed.

Lemma CLEAR_BIT_spec (x m n : Z) :
  0 <= n ->
  Z.testbit (CLEAR_BIT x m) n
  = Z.testbit x n && ((n <? 32) && negb (Z.testbit m n)).
Proof.
  intros Hn. unfold CLEAR_BIT. rewrite Z.land_spec, not32_spec by exact Hn.
  reflexivity.
Qed.

Lemma MODIFY_REG_spec (x m v n : Z) :
  0 <= n ->
  Z.testbit (MODIFY_REG x m v) n
  = Z.testbit x n && ((n <? 32) && negb (Z.testbit m n)) || Z.testbit v n.
Proof.
  intros Hn. unfold MODIFY_REG.
  rewrite Z.lor_spec, Z.land_spec, not32_spec by exact Hn.
  reflexivity.
Qed.

Lemma in_uint32_ones (x : Z) : in_uint32 x <-> Z.land x (Z.ones 32) = x.
Proof.
  unfold in_uint32. rewrite Z.land_ones by lia. split.
  - intros H. apply Z.mod_small, H.
  - intros <-. apply Z.mod_pos_bound. lia.
Qed.

Lemma in_uint32_land (x y : Z) : in_uint32 x -> in_uint32 (Z.land x y).
Proof.
  rewrite !in_uint32_ones. intros H.
  rewrite <- Z.land_assoc, (Z.land_comm y), Z.land_assoc, H. reflexivity.
Qed.

Lemma in_uint32_lor (x y : Z) :
  in_uint32 x -> in_uint32 y -> in_uint32 (Z.lor x y).
Proof.
  rewrite !in_uint32_ones. intros Hx Hy.
  rewrite Z.land_lor_distr_l, Hx, Hy. reflexivity.
Qed.

(** A value within the mask reads back from the field [MODIFY_REG] wrote,
    also after bits outside the mask are set. *)
Lemma MODIFY_REG_field (x m v s : Z) :
  Z.land v m = v -> Z.land s m = 0 ->
  Z.land (SET_BIT (MODIFY_REG x m v) s) m = v.
Proof.
  intros Hv Hs. rewrite <- Hv at 2.
  apply Z.bits_inj'. intros n Hn.
  assert (S : Z.testbit s n && Z.testbit m n = false)
    by (rewrite <- Z.land_spec, Hs; apply Z.bits_0).
  unfold SET_BIT.
  rewrite !Z.land_spec, Z.lor_spec, MODIFY_REG_spec by exact Hn.
  destruct (Z.testbit x n), (n <? 32), (Z.testbit m n), (Z.testbit v n),
    (Z.testbit s n); cbn in S |- *; (reflexivity || discriminate S).
Qed.

End RegisterMacros.

Section InitEffects.
Context {T : Target}.

(** Replace the run by its value [E] and project it. *)
Ltac project_run E :=
  cbv zeta; rewrite E; unfold result, log, world;
  cbn [fst snd hswpmi_obj SWPMI1].

Lemma no_driver_effects (l : list event) :
  driver_effects l = [] -> Forall (fun e => is_driver_effect e = false) l.
Proof.
  unfold driver_effects. induction l as [|e l IH]; intros F; [constructor|].
  cbn [filter] in F. destruct (is_driver_effect e) eqn:E; [discriminate F|].
  constructor; auto.
Qed.

Lemma only_calls (l : list event) :
  driver_effects l = [] -> assert_failures l = [] -> l = map EvCall (calls l).
Proof.
  unfold driver_effects, assert_failures, calls.
  induction l as [|e l IH]; intros D A; [reflexivity|].
  destruct e; cbn in D, A |- *; try discriminate.
  f_equal. apply IH; assumption.
Qed.

(** X1: in every run with a non-NULL handle, whatever is handed to code
    outside the driver (the Msp bring-up, the assert hook) comes before the
    transition to Busy and the first register access: the log is a prefix
    free of state and register effects, which holds every call, followed by
    the state and register effects. *)
Theorem init_calls_precede_register_access (w : World) :
  let r := HAL_SWPMI_Init HandleAddr w in
  exists pre,
    log r = pre ++ driver_effects (log r)
    /\ Forall (fun e => is_driver_effect e = false) pre
    /\ calls (log r) = calls pre.
Proof.
  destruct w as [h R].
  destruct (HAL_SWPMI_Init_run h R) as (pre & h1 & E & D & _).
  project_run E. exists pre.
  rewrite calls_run, (driver_effects_run _ _ _ D).
  repeat split. apply no_driver_effects, D.
Qed.

(** X2: bit [n] of OR after init is set exactly when the VoltageClass value
    has it, or OR had it and it lies outside the CLASS mask.  Bits outside
    CLASS are thus kept, and a VoltageClass value with a bit outside CLASS
    sets that bit in OR: the value is not masked. *)
Theorem init_OR_bits (w : World) (n : Z) :
  0 <= n ->
  let r := HAL_SWPMI_Init HandleAddr w in
  Z.testbit (rd OR (SWPMI1 (world r))) n
  = Z.testbit (rd OR (SWPMI1 w)) n
      && ((n <? 32) && negb (Z.testbit SWPMI_OR_CLASS n))
    || Z.testbit (VoltageClass (Init (hswpmi_obj w))) n.
Proof.
  intros Hn. destruct w as [h R].
  destruct (HAL_SWPMI_Init_run h R) as (pre & h1 & E & _).
  project_run E. cbn [configured rd wr r_OR].
  apply MODIFY_REG_spec, Hn.
Qed.

(** X3: when the VoltageClass value lies within the CLASS mask, the CLASS
    field of OR reads back as that value after init, whatever OR held. *)
Theorem init_sets_voltage_class_field (w : World) :
  Z.land (VoltageClass (Init (hswpmi_obj w))) SWPMI_OR_CLASS
  = VoltageClass (Init (hswpmi_obj w)) ->
  let r := HAL_SWPMI_Init HandleAddr w in
  Z.land (rd OR (SWPMI1 (world r))) SWPMI_OR_CLASS
  = VoltageClass (Init (hswpmi_obj w)).
Proof.
  intros V. destruct w as [h R]. cbn [hswpmi_obj] in V |- *.
  destruct (HAL_SWPMI_Init_run h R) as (pre & h1 & E & _).
  project_run E. cbn [configured rd wr r_OR].
  rewrite <- V at 2.
  apply Z.bits_inj'. intros n Hn.
  rewrite !Z.land_spec, MODIFY_REG_spec by exact Hn.
  destruct (Z.testbit (r_OR R) n), (n <? 32), (Z.testbit SWPMI_OR_CLASS n),
    (Z.testbit (VoltageClass (Init h)) n); reflexivity.
Qed.

(** X4: the disabling of the interface changes no bit of CR but those of
    SWPACT: bit [n] of CR after the listed statements is the bit CR had,
    cleared when it belongs to SWPACT. *)
Theorem init_CR_bits (w : World) (n : Z) :
  0 <= n ->
  let r := HAL_SWPMI_Init HandleAddr w in
  Z.testbit (rd CR (SWPMI1 (world r))) n
  = Z.testbit (rd CR (SWPMI1 w)) n
      && ((n <? 32) && negb (Z.testbit SWPMI_CR_SWPACT n)).
Proof.
  intros Hn. destruct w as [h R].
  destruct (HAL_SWPMI_Init_run h R) as (pre & h1 & E & _).
  project_run E. cbn [configured rd wr r_CR].
  apply CLEAR_BIT_spec, Hn.
Qed.

(** X5: the statements keep every register a [uint32_t]: if the block
    holds 32-bit values and so does the VoltageClass field, the block
    after init holds 32-bit values, whatever the masks. *)
Theorem init_keeps_registers_in_range (w : World) :
  regs_in_uint32 (SWPMI1 w) ->
  in_uint32 (VoltageClass (Init (hswpmi_obj w))) ->
  regs_in_uint32 (SWPMI1 (world (HAL_SWPMI_Init HandleAddr w))).
Proof.
  intros HR HV. destruct w as [h R]. cbn [hswpmi_obj SWPMI1] in HR, HV.
  destruct (HAL_SWPMI_Init_run h R) as (pre & h1 & E & _).
  rewrite E. unfold world. cbn [fst snd SWPMI1].
  intros r. unfold configured.
  destruct r; cbn [rd wr r_CR r_BRR r_ISR r_ICR r_IER r_RFL r_TDR r_RDR r_OR].
  - apply in_uint32_land, (HR CR).
  - apply (HR BRR).
  - apply (HR ISR).
  - unfold in_uint32. lia.
  - apply (HR IER).
  - apply (HR RFL).
  - apply (HR TDR).
  - apply (HR RDR).
  - apply in_uint32_lor; [apply in_uint32_land, (HR OR) | exact HV].
Qed.

(** The handle left by the bring-up block, or the handle itself from a
    state other than Reset. *)
Lemma handle_after_bring_up (h h1 : SWPMI_HandleTypeDef) (R : SWPMI_TypeDef) :
  (if state_eqb (State h) HAL_SWPMI_STATE_RESET
   then init_from_reset (mkWorld h R)
        = (tt, mkWorld h1 R, [EvCall (bring_up_function h)])
   else h1 = h) ->
  Init h1 = Init h
  /\ MspDeInitCallback h1 = MspDeInitCallback h
  /\ (USE_HAL_SWPMI_REGISTER_CALLBACKS = false ->
      RxCpltCallback h1 = RxCpltCallback h
      /\ RxHalfCpltCallback h1 = RxHalfCpltCallback h
      /\ TxCpltCallback h1 = TxCpltCallback h
      /\ TxHalfCpltCallback h1 = TxHalfCpltCallback h
      /\ ErrorCallback h1 = ErrorCallback h
      /\ MspInitCallback h1 = MspInitCallback h).
Proof.
  destruct (state_eqb (State h) HAL_SWPMI_STATE_RESET).
  - intros F.
    destruct (init_from_reset_run h R) as (h2 & E2 & I & _ & _ & _ & De & K).
    rewrite E2 in F. injection F as <-.
    split; [exact I|]. split; [exact De|].
    intros U. rewrite U in K. exact K.
  - intros ->. repeat split.
Qed.

(** X8: with the callback registration feature off, init neither reads nor
    writes a callback slot: the seven slots are as before, and the
    bring-up from Reset calls the weak HAL_SWPMI_MspInit whatever the
    MspInit slot holds. *)
Theorem init_without_registration_ignores_slots (w : World) :
  USE_HAL_SWPMI_REGISTER_CALLBACKS = false ->
  let h := hswpmi_obj w in
  let r := HAL_SWPMI_Init HandleAddr w in
  let h' := hswpmi_obj (world r) in
  RxCpltCallback h' = RxCpltCallback h
  /\ RxHalfCpltCallback h' = RxHalfCpltCallback h
  /\ TxCpltCallback h' = TxCpltCallback h
  /\ TxHalfCpltCallback h' = TxHalfCpltCallback h
  /\ ErrorCallback h' = ErrorCallback h
  /\ MspInitCallback h' = MspInitCallback h
  /\ MspDeInitCallback h' = MspDeInitCallback h
  /\ calls (log r)
     = (if state_eqb (State h) HAL_SWPMI_STATE_RESET
        then [HAL_SWPMI_MspInit] else []).
Proof.
  intros U. destruct w as [h R].
  destruct (HAL_SWPMI_Init_run h R) as (pre & h1 & E & _ & _ & C & F).
  destruct (handle_after_bring_up h h1 R F) as (_ & De & K).
  destruct (K U) as (K1 & K2 & K3 & K4 & K5 & K6).
  project_run E. rewrite calls_run, C.
  cbn [set_State RxCpltCallback RxHalfCpltCallback TxCpltCallback
       TxHalfCpltCallback ErrorCallback MspInitCallback MspDeInitCallback].
  unfold bring_up_function. rewrite U.
  repeat (split; [assumption|]). reflexivity.
Qed.

(** X9: init on a handle that is not in Reset (a re-initialisation of a
    Ready handle, for one) runs no bring-up and resets nothing: the seven
    callback slots and the lock are as before, and only the state
    changes. *)
Theorem reinit_keeps_callbacks_and_lock (w : World) :
  State (hswpmi_obj w) <> HAL_SWPMI_STATE_RESET ->
  let h := hswpmi_obj w in
  let r := HAL_SWPMI_Init HandleAddr w in
  let h' := hswpmi_obj (world r) in
  calls (log r) = []
  /\ Lock h' = Lock h
  /\ RxCpltCallback h' = RxCpltCallback h
  /\ RxHalfCpltCallback h' = RxHalfCpltCallback h
  /\ TxCpltCallback h' = TxCpltCallback h
  /\ TxHalfCpltCallback h' = TxHalfCpltCallback h
  /\ ErrorCallback h' = ErrorCallback h
  /\ MspInitCallback h' = MspInitCallback h
  /\ MspDeInitCallback h' = MspDeInitCallback h
  /\ State h' = HAL_SWPMI_STATE_BUSY.
Proof.
  intros N. destruct w as [h R]. cbn [hswpmi_obj] in N.
  destruct (HAL_SWPMI_Init_run h R) as (pre & h1 & E & _ & _ & C & F).
  assert (S : state_eqb (State h) HAL_SWPMI_STATE_RESET = false).
  { destruct (state_eqb (State h) HAL_SWPMI_STATE_RESET) eqn:Q; [|reflexivity].
    apply state_eqb_eq in Q. contradiction. }
  rewrite S in C, F. subst h1.
  project_run E. rewrite calls_run, C. repeat split.
Qed.

(** X10: when no parameter check fails, or the checks are compiled out,
    the effects of a run up to the voltage class selection of line 290 are,
    in order and with nothing in between: the bring-up call when the state
    at entry is Reset, then the transition to Busy, the read and write of
    CR, the write of ICR and the read and write of OR.  What the function
    does after line 290 comes after these. *)
Theorem init_log_without_assert_failure (w : World) :
  USE_FULL_ASSERT = false \/ config_valid (Init (hswpmi_obj w)) = true ->
  let h := hswpmi_obj w in
  log (HAL_SWPMI_Init HandleAddr w)
  = (if state_eqb (State h) HAL_SWPMI_STATE_RESET
     then [EvCall (bring_up_function h)] else [])
    ++ [ EvState HAL_SWPMI_STATE_BUSY;
         EvLoad CR (rd CR (SWPMI1 w));
         EvStore CR (CLEAR_BIT (rd CR (SWPMI1 w)) SWPMI_CR_SWPACT);
         EvStore ICR 0x019F;
         EvLoad OR (rd OR (SWPMI1 w));
         EvStore OR (MODIFY_REG (rd OR (SWPMI1 w)) SWPMI_OR_CLASS
                       (VoltageClass (Init h))) ].
Proof.
  intros V. destruct w as [h R]. cbn [hswpmi_obj SWPMI1] in V |- *.
  destruct (HAL_SWPMI_Init_run h R) as (pre & h1 & E & D & A & C & _).
  assert (A0 : failed_checks (Init h) = []).
  { unfold failed_checks. destruct V as [U|V]; [rewrite U; reflexivity|].
    unfold config_valid in V.
    destruct USE_FULL_ASSERT; [|reflexivity].
    destruct (IS_SWPMI_VOLTAGE_CLASS _), (IS_SWPMI_BITRATE_VALUE _),
      (IS_SWPMI_TX_BUFFERING_MODE _), (IS_SWPMI_RX_BUFFERING_MODE _);
      cbn in V |- *; (reflexivity || discriminate V). }
  rewrite A0 in A.
  cbv zeta. rewrite E. unfold log. cbn [snd].
  rewrite (only_calls pre D A), C.
  destruct (state_eqb (State h) HAL_SWPMI_STATE_RESET); reflexivity.
Qed.

(** The run of the whole function on a non-NULL handle: the listed
    statements, then the remainder. *)
Lemma HAL_SWPMI_Init_to_return_run (buffering : Z)
    (h : SWPMI_HandleTypeDef) (R : SWPMI_TypeDef) :
  exists pre h1 post,
    HAL_SWPMI_Init_to_return buffering HandleAddr (mkWorld h R)
    = (HAL_OK,
       mkWorld (set_State HAL_SWPMI_STATE_READY h1)
         (mkRegs
            (SET_BIT
               (MODIFY_REG (CLEAR_BIT (rd CR R) SWPMI_CR_SWPACT) buffering
                  (Z.lor (TxBufferingMode (Init h)) (RxBufferingMode (Init h))))
               SWPMI_CR_SWPACT)
            (BitRate (Init h)) (rd ISR R) 0x019F (rd IER R) (rd RFL R)
            (rd TDR R) (rd RDR R)
            (MODIFY_REG (rd OR R) SWPMI_OR_CLASS (VoltageClass (Init h)))),
       pre ++ post)
    /\ calls (pre ++ post)
       = (if state_eqb (State h) HAL_SWPMI_STATE_RESET
          then [bring_up_function h] else [])
    /\ Lock h1
       = (if state_eqb (State h) HAL_SWPMI_STATE_RESET
          then HAL_UNLOCKED else Lock h).
Proof.
  destruct (HAL_SWPMI_Init_run h R) as (pre & h1 & E & _ & _ & C & F).
  assert (I : Init h1 = Init h /\
              Lock h1 = (if state_eqb (State h) HAL_SWPMI_STATE_RESET
                         then HAL_UNLOCKED else Lock h)).
  { destruct (state_eqb (State h) HAL_SWPMI_STATE_RESET).
    - destruct (init_from_reset_run h R) as (h2 & E2 & I2 & _ & _ & L2 & _).
      rewrite E2 in F. injection F as <-. auto.
    - subst h1. auto. }
  destruct I as (I & L).
  exists pre, h1. eexists. split; [|split; [|exact L]].
  - unfold HAL_SWPMI_Init_to_return, bind. rewrite E.
    unfold init_remainder, assign_State, update, emit, load, store, handle,
      bind, ret, configured.
    cbn [hswpmi_obj SWPMI1 set_State Init rd wr
         r_CR r_BRR r_ISR r_ICR r_IER r_RFL r_TDR r_RDR r_OR].
    rewrite I, <- !app_assoc. cbn [app]. reflexivity.
  - unfold calls in *. rewrite flat_map_app, C. cbn. apply app_nil_r.
Qed.

(** C4: the whole function calls the Msp-init bring-up, and initialises
    the lock, exactly when the state at entry is Reset; and whatever the
    state at entry it applies the configuration of the handle and ends in
    Ready: BRR holds the bit rate, the CLASS field of OR reads back as the
    voltage class, and the buffering field of CR reads back as the Tx and
    Rx buffering modes, for values that lie within their fields. *)
Theorem init_bring_up_and_configuration (buffering : Z) (w : World) :
  let h := hswpmi_obj w in
  let c := Init h in
  let r := HAL_SWPMI_Init_to_return buffering HandleAddr w in
  let h' := hswpmi_obj (world r) in
  let R' := SWPMI1 (world r) in
  calls (log r)
  = (if state_eqb (State h) HAL_SWPMI_STATE_RESET
     then [bring_up_function h] else [])
  /\ Lock h'
     = (if state_eqb (State h) HAL_SWPMI_STATE_RESET
        then HAL_UNLOCKED else Lock h)
  /\ State h' = HAL_SWPMI_STATE_READY
  /\ rd BRR R' = BitRate c
  /\ (Z.land (VoltageClass c) SWPMI_OR_CLASS = VoltageClass c ->
      Z.land (rd OR R') SWPMI_OR_CLASS = VoltageClass c)
  /\ (Z.land (Z.lor (TxBufferingMode c) (RxBufferingMode c)) buffering
      = Z.lor (TxBufferingMode c) (RxBufferingMode c) ->
      Z.land SWPMI_CR_SWPACT buffering = 0 ->
      Z.land (rd CR R') buffering
      = Z.lor (TxBufferingMode c) (RxBufferingMode c)).
Proof.
  destruct w as [h R].
  destruct (HAL_SWPMI_Init_to_return_run buffering h R)
    as (pre & h1 & post & E & C & L).
  project_run E.
  cbn [rd r_CR r_BRR r_OR set_State Lock State].
  split; [exact C|]. split; [exact L|]. split; [reflexivity|].
  split; [reflexivity|]. split.
  - intros V.
    pose proof (MODIFY_REG_field (r_OR R) SWPMI_OR_CLASS
                  (VoltageClass (Init h)) 0 V (Z.land_0_l _)) as P.
    unfold SET_BIT in P. rewrite Z.lor_0_r in P. exact P.
  - intros V S. apply MODIFY_REG_field; assumption.
Qed.

End InitEffects.

(** ** The further properties on sample handles *)

Section InitEffectsSamples.
Import Samples.

(** A voltage class value of 3 on a block whose OR holds 3: bit 0, outside
    CLASS, is set by the value itself. *)
Lemma init_OR_bits_witness :
  0 <= 0
  /\ (let w := mkWorld stray_class_handle busy_regs in
      let r := @HAL_SWPMI_Init stm32l4 HandleAddr w in
      Z.testbit (rd OR (SWPMI1 (world r))) 0
      = Z.testbit (rd OR (SWPMI1 w)) 0
          && ((0 <? 32) && negb (Z.testbit (@SWPMI_OR_CLASS stm32l4) 0))
        || Z.testbit (VoltageClass (Init (hswpmi_obj w))) 0).
Proof.
  split.
  - lia.
  - apply (@init_OR_bits stm32l4 (mkWorld stray_class_handle busy_regs) 0).
    lia.
Defined.

Lemma init_sets_voltage_class_field_witness :
  let w := mkWorld user_ready_handle busy_regs in
  Z.land (VoltageClass (Init (hswpmi_obj w))) (@SWPMI_OR_CLASS stm32l4)
  = VoltageClass (Init (hswpmi_obj w))
  /\ (let r := @HAL_SWPMI_Init stm32l4 HandleAddr w in
      Z.land (rd OR (SWPMI1 (world r))) (@SWPMI_OR_CLASS stm32l4)
      = VoltageClass (Init (hswpmi_obj w))).
Proof.
  split.
  - reflexivity.
  - apply (@init_sets_voltage_class_field stm32l4
             (mkWorld user_ready_handle busy_regs)).
    reflexivity.
Defined.

Lemma init_CR_bits_witness :
  0 <= 4
  /\ (let w := mkWorld user_ready_handle busy_regs in
      let r := @HAL_SWPMI_Init stm32l4 HandleAddr w in
      Z.testbit (rd CR (SWPMI1 (world r))) 4
      = Z.testbit (rd CR (SWPMI1 w)) 4
          && ((4 <? 32) && negb (Z.testbit (@SWPMI_CR_SWPACT stm32l4) 4))).
Proof.
  split.
  - lia.
  - apply (@init_CR_bits stm32l4 (mkWorld user_ready_handle busy_regs) 4).
    lia.
Defined.

Lemma init_keeps_registers_in_range_witness :
  let w := mkWorld stray_class_handle busy_regs in
  regs_in_uint32 (SWPMI1 w)
  /\ in_uint32 (VoltageClass (Init (hswpmi_obj w)))
  /\ regs_in_uint32 (SWPMI1 (world (@HAL_SWPMI_Init stm32l4 HandleAddr w))).
Proof.
  assert (HR : regs_in_uint32 busy_regs).
  { intros r. destruct r; cbn; unfold in_uint32; lia. }
  assert (HV : in_uint32 (VoltageClass (Init stray_class_handle))).
  { cbn. unfold in_uint32. lia. }
  split; [exact HR|]. split; [exact HV|].
  exact (@init_keeps_registers_in_range stm32l4
           (mkWorld stray_class_handle busy_regs) HR HV).
Defined.

Lemma init_without_registration_ignores_slots_witness :
  @USE_HAL_SWPMI_REGISTER_CALLBACKS stm32l4_full_assert = false
  /\ (let w := mkWorld stray_class_handle busy_regs in
      let r := @HAL_SWPMI_Init stm32l4_full_assert HandleAddr w in
      MspInitCallback (hswpmi_obj w) = Some (UserCallback 7)
      /\ MspInitCallback (hswpmi_obj (world r)) = Some (UserCallback 7)
      /\ RxCpltCallback (hswpmi_obj (world r)) = None
      /\ calls (log r) = [HAL_SWPMI_MspInit]).
Proof.
  split; [reflexivity|].
  pose proof (@init_without_registration_ignores_slots stm32l4_full_assert
                (mkWorld stray_class_handle busy_regs) eq_refl) as P.
  cbv zeta in P. destruct P as (P1 & _ & _ & _ & _ & P6 & _ & P8).
  cbv zeta. split; [reflexivity|]. split; [exact P6|].
  split; [exact P1 | exact P8].
Defined.

Lemma reinit_keeps_callbacks_and_lock_witness :
  let w := mkWorld user_ready_handle busy_regs in
  State (hswpmi_obj w) <> HAL_SWPMI_STATE_RESET
  /\ (let r := @HAL_SWPMI_Init stm32l4 HandleAddr w in
      calls (log r) = []
      /\ Lock (hswpmi_obj (world r)) = HAL_LOCKED
      /\ RxCpltCallback (hswpmi_obj (world r)) = Some (UserCallback 1)
      /\ ErrorCallback (hswpmi_obj (world r)) = Some (UserCallback 3)
      /\ MspInitCallback (hswpmi_obj (world r)) = Some (UserCallback 7)).
Proof.
  assert (N : State user_ready_handle <> HAL_SWPMI_STATE_RESET)
    by (cbn; discriminate).
  split; [exact N|].
  pose proof (@reinit_keeps_callbacks_and_lock stm32l4
                (mkWorld user_ready_handle busy_regs) N) as P.
  cbv zeta in P.
  destruct P as (P0 & P1 & P2 & _ & _ & _ & P6 & P7 & _).
  cbv zeta. split; [exact P0|]. split; [exact P1|]. split; [exact P2|].
  split; [exact P6 | exact P7].
Defined.

Lemma init_log_without_assert_failure_witness :
  let w := mkWorld fresh_handle_user_msp busy_regs in
  (@USE_FULL_ASSERT stm32l4 = false
   \/ @config_valid stm32l4 (Init (hswpmi_obj w)) = true)
  /\ log (@HAL_SWPMI_Init stm32l4 HandleAddr w)
     = [ EvCall (UserCallback 7);
         EvState HAL_SWPMI_STATE_BUSY;
         EvLoad CR 0x3F; EvStore CR 0x1F;
         EvStore ICR 0x019F;
         EvLoad OR 0x3; EvStore OR 0x3 ].
Proof.
  split.
  - left. reflexivity.
  - exact (@init_log_without_assert_failure stm32l4
             (mkWorld fresh_handle_user_msp busy_regs) (or_introl eq_refl)).
Defined.

Lemma init_bring_up_and_configuration_witness :
  (let r := @HAL_SWPMI_Init_to_return stm32l4 0xF HandleAddr
              (mkWorld user_ready_handle busy_regs) in
   calls (log r) = []
   /\ Lock (hswpmi_obj (world r)) = HAL_LOCKED
   /\ State (hswpmi_obj (world r)) = HAL_SWPMI_STATE_READY
   /\ rd BRR (SWPMI1 (world r)) = 10
   /\ Z.land (rd OR (SWPMI1 (world r))) 0x2 = 0
   /\ Z.land (rd CR (SWPMI1 (world r))) 0xF = 0xC)
  /\ (let r := @HAL_SWPMI_Init_to_return stm32l4 0xF HandleAddr
                 (mkWorld fresh_handle_user_msp busy_regs) in
      calls (log r) = [UserCallback 7]
      /\ Lock (hswpmi_obj (world r)) = HAL_UNLOCKED
      /\ Z.land (rd OR (SWPMI1 (world r))) 0x2 = 0x2).
Proof.
  split.
  - pose proof (@init_bring_up_and_configuration stm32l4 0xF
                  (mkWorld user_ready_handle busy_regs)) as P.
    cbv zeta in P. destruct P as (P1 & P2 & P3 & P4 & P5 & P6).
    cbv zeta. split; [exact P1|]. split; [exact P2|]. split; [exact P3|].
    split; [exact P4|]. split; [exact (P5 eq_refl) | exact (P6 eq_refl eq_refl)].
  - pose proof (@init_bring_up_and_configuration stm32l4 0xF
                  (mkWorld fresh_handle_user_msp busy_regs)) as P.
    cbv zeta in P. destruct P as (P1 & P2 & _ & _ & P5 & _).
    cbv zeta. split; [exact P1|]. split; [exact P2 | exact (P5 eq_refl)].
Defined.

(** The whole run on the Ready handle: the remainder writes BRR, the
    buffering field of CR, returns to Ready and sets SWPACT. *)
Example init_to_return_ready_handle :
  let r := @HAL_SWPMI_Init_to_return stm32l4 0xF HandleAddr
             (mkWorld user_ready_handle busy_regs) in
  result r = HAL_OK
  /\ log r = [ EvState HAL_SWPMI_STATE_BUSY;
               EvLoad CR 0x3F; EvStore CR 0x1F;
               EvStore ICR 0x019F;
               EvLoad OR 0x3; EvStore OR 0x1;
               EvStore BRR 10;
               EvLoad CR 0x1F; EvStore CR 0x1C;
               EvState HAL_SWPMI_STATE_READY;
               EvLoad CR 0x1C; EvStore CR 0x3C ].
Proof.
  cbv zeta. split; reflexivity.
Qed.

(** An unmasked voltage class value: 3 written on an OR that holds 0 sets
    bit 0, outside the CLASS field, besides the class bit. *)
Example init_stray_class_sets_bit_0 :
  let r := @HAL_SWPMI_Init stm32l4 HandleAddr
             (mkWorld stray_class_handle active_regs) in
  rd OR (SWPMI1 (world r)) = 0x3
  /\ Z.testbit (rd OR active_regs) 0 = false
  /\ Z.testbit (@SWPMI_OR_CLASS stm32l4) 0 = false.
Proof.
  cbv zeta. repeat split.
Qed.

End InitEffectsSamples.
